(** * LSM303D accelerometer driver: sampling engine and report ring

    A shallow embedding of [src/apps/drivers/lsm303d/lsm303d.cpp]: the
    register protocol, the identity probe, the report ring with its two
    cursors, the timer registration and the [read]/[ioctl] control surface.

    The driver object and the collaborators it talks to (SPI bus, high
    resolution timer, heap, uORB, poll waiters) form a [world]; every
    member function is a computation in a small state-and-failure monad
    over that world. *)

From stdpp Require Import base numbers list.

Local Open Scope Z_scope.

(** ** Machine integers *)

(** [unsigned] and [unsigned long] are 32 bits wide on the STM32 target. *)
Definition UINT_MODULUS : Z := 2 ^ 32.

(** Conversion to [unsigned]: reduction modulo 2^32. *)
Definition to_unsigned (z : Z) : Z := z mod UINT_MODULUS.

(** Conversion to [int]: two's complement reading of the low 32 bits. *)
Definition to_int (z : Z) : Z :=
  let u := to_unsigned z in
  if u <? 2 ^ 31 then u else u - UINT_MODULUS.

(** Conversion to [uint8_t]. *)
Definition to_uint8 (z : Z) : Z := Z.land z 255.

(** An [int16_t] member of the packed little-endian receive structure,
    given its low and high byte. *)
Definition int16_le (lo hi : Z) : Z :=
  let u := Z.lor (to_uint8 lo) (Z.shiftl (to_uint8 hi) 8) in
  if Z.testbit u 15 then u - 65536 else u.

(** ** Constants of the source *)

Definition OK : Z := 0.
Definition ERROR : Z := -1.

(** [<errno.h>] *)
Definition EIO : Z := 5.
Definition EAGAIN : Z := 11.
Definition ENOMEM : Z := 12.
Definition EINVAL : Z := 22.
Definition ENOSPC : Z := 28.

Definition DIR_READ : Z := Z.shiftl 1 7.
Definition DIR_WRITE : Z := Z.shiftl 0 7.
Definition ADDR_INCREMENT : Z := Z.shiftl 1 6.

Definition ADDR_STATUS_A : Z := 0x27.
Definition ADDR_CTRL_REG1 : Z := 0x20.
Definition REG1_RATE_100HZ_A : Z :=
  Z.lor (Z.lor (Z.lor (Z.shiftl 0 7) (Z.shiftl 1 6)) (Z.shiftl 1 5)) (Z.shiftl 0 4).
Definition REG1_Z_ENABLE_A : Z := Z.shiftl 1 2.
Definition REG1_Y_ENABLE_A : Z := Z.shiftl 1 1.
Definition REG1_X_ENABLE_A : Z := Z.shiftl 1 0.

Definition ADDR_WHO_AM_I : Z := 0x0F.
Definition WHO_I_AM : Z := 0x49.

(** ** Data *)

(** [struct accel_report]: the members [measure] assigns, and [si] for all
    the remaining members (scaled axes, range, scaling), which this driver
    never writes. *)
Record accel_report := {
  timestamp : Z;
  x_raw : Z;
  y_raw : Z;
  z_raw : Z;
  si : Z
}.

Global Instance accel_report_inhabited : Inhabited accel_report :=
  populate {| timestamp := 0; x_raw := 0; y_raw := 0; z_raw := 0; si := 0 |}.

(** The result of [memset(&r, 0, sizeof(r))]. *)
Definition zeroed_report : accel_report :=
  {| timestamp := 0; x_raw := 0; y_raw := 0; z_raw := 0; si := 0 |}.

(** [struct hrt_call]: whether the entry is queued with the timer, the
    delay before the first callout and the period between callouts. *)
Record hrt_call := {
  queued : bool;
  delay : Z;
  period : Z
}.

(** The members of [class LSM303D] that the sampling engine uses.
    [_reports] is the array behind the pointer; [nullptr] is the array
    with no slot. *)
Record LSM303D := {
  _call : hrt_call;
  _call_interval : Z;
  _num_reports : Z;
  _next_report : Z;
  _oldest_report : Z;
  _reports : list accel_report
}.

Definition with_call (c : hrt_call) (d : LSM303D) : LSM303D :=
  {| _call := c; _call_interval := _call_interval d;
     _num_reports := _num_reports d; _next_report := _next_report d;
     _oldest_report := _oldest_report d; _reports := _reports d |}.

Definition with_call_interval (v : Z) (d : LSM303D) : LSM303D :=
  {| _call := _call d; _call_interval := v;
     _num_reports := _num_reports d; _next_report := _next_report d;
     _oldest_report := _oldest_report d; _reports := _reports d |}.

Definition with_num_reports (v : Z) (d : LSM303D) : LSM303D :=
  {| _call := _call d; _call_interval := _call_interval d;
     _num_reports := v; _next_report := _next_report d;
     _oldest_report := _oldest_report d; _reports := _reports d |}.

Definition with_next_report (v : Z) (d : LSM303D) : LSM303D :=
  {| _call := _call d; _call_interval := _call_interval d;
     _num_reports := _num_reports d; _next_report := v;
     _oldest_report := _oldest_report d; _reports := _reports d |}.

Definition with_oldest_report (v : Z) (d : LSM303D) : LSM303D :=
  {| _call := _call d; _call_interval := _call_interval d;
     _num_reports := _num_reports d; _next_report := _next_report d;
     _oldest_report := v; _reports := _reports d |}.

Definition with_reports (l : list accel_report) (d : LSM303D) : LSM303D :=
  {| _call := _call d; _call_interval := _call_interval d;
     _num_reports := _num_reports d; _next_report := _next_report d;
     _oldest_report := _oldest_report d; _reports := l |}.

(** The collaborators.  What they answer is fixed in advance by functions
    of how often they were asked; what the driver did to them is logged.

    - [spi_wire k tx]: status and received bytes of the [k]-th exchange on
      the bus when [tx] is sent;
    - [spi_log]: the frames sent so far, latest first;
    - [stack k i]: what byte [i] of a local buffer holds before the driver
      assigns it, when the buffer is set up for the [k]-th exchange (the
      source sends and reads such bytes; their values are anybody's);
    - [hrt_clock k]: the [k]-th reading of the monotonic clock;
    - [heap k n]: the [k]-th request for an array of [n] reports: [None]
      when no memory is left, else what the fresh slots hold;
    - [cdev_init]: what the base class initialisation returns once the
      probe has passed; [cdev_ioctl cmd arg]: what the base class answers
      to a command the driver does not handle;
    - [poll_notified]: number of [poll_notify(POLLIN)] calls;
    - [orb_advertised]: the reports handed to [orb_advertise], latest
      first;
    - [orb_published]: the reports handed to [orb_publish], latest first. *)
Record host := {
  spi_wire : nat -> list Z -> Z * list Z;
  spi_log : list (list Z);
  stack : nat -> nat -> Z;
  hrt_clock : nat -> Z;
  hrt_reads : nat;
  heap : nat -> Z -> option accel_report;
  heap_requests : nat;
  cdev_init : Z;
  cdev_ioctl : Z -> Z -> Z;
  poll_notified : nat;
  orb_advertised : list accel_report;
  orb_published : list accel_report
}.

Definition log_spi (tx : list Z) (h : host) : host :=
  {| spi_wire := spi_wire h; spi_log := tx :: spi_log h; stack := stack h;
     hrt_clock := hrt_clock h; hrt_reads := hrt_reads h;
     heap := heap h; heap_requests := heap_requests h;
     cdev_init := cdev_init h; cdev_ioctl := cdev_ioctl h;
     poll_notified := poll_notified h; orb_advertised := orb_advertised h;
     orb_published := orb_published h |}.

Definition log_clock (h : host) : host :=
  {| spi_wire := spi_wire h; spi_log := spi_log h; stack := stack h;
     hrt_clock := hrt_clock h; hrt_reads := S (hrt_reads h);
     heap := heap h; heap_requests := heap_requests h;
     cdev_init := cdev_init h; cdev_ioctl := cdev_ioctl h;
     poll_notified := poll_notified h; orb_advertised := orb_advertised h;
     orb_published := orb_published h |}.

Definition log_heap (h : host) : host :=
  {| spi_wire := spi_wire h; spi_log := spi_log h; stack := stack h;
     hrt_clock := hrt_clock h; hrt_reads := hrt_reads h;
     heap := heap h; heap_requests := S (heap_requests h);
     cdev_init := cdev_init h; cdev_ioctl := cdev_ioctl h;
     poll_notified := poll_notified h; orb_advertised := orb_advertised h;
     orb_published := orb_published h |}.

Definition log_notify (h : host) : host :=
  {| spi_wire := spi_wire h; spi_log := spi_log h; stack := stack h;
     hrt_clock := hrt_clock h; hrt_reads := hrt_reads h;
     heap := heap h; heap_requests := heap_requests h;
     cdev_init := cdev_init h; cdev_ioctl := cdev_ioctl h;
     poll_notified := S (poll_notified h); orb_advertised := orb_advertised h;
     orb_published := orb_published h |}.

Definition log_publish (r : accel_report) (h : host) : host :=
  {| spi_wire := spi_wire h; spi_log := spi_log h; stack := stack h;
     hrt_clock := hrt_clock h; hrt_reads := hrt_reads h;
     heap := heap h; heap_requests := heap_requests h;
     cdev_init := cdev_init h; cdev_ioctl := cdev_ioctl h;
     poll_notified := poll_notified h; orb_advertised := orb_advertised h;
     orb_published := r :: orb_published h |}.

Definition log_advertise (r : accel_report) (h : host) : host :=
  {| spi_wire := spi_wire h; spi_log := spi_log h; stack := stack h;
     hrt_clock := hrt_clock h; hrt_reads := hrt_reads h;
     heap := heap h; heap_requests := heap_requests h;
     cdev_init := cdev_init h; cdev_ioctl := cdev_ioctl h;
     poll_notified := poll_notified h; orb_advertised := r :: orb_advertised h;
     orb_published := orb_published h |}.

Record world := {
  dev : LSM303D;
  env : host
}.

(** ** The monad of member functions *)

(** A call either returns a value in a new world, or touches a report slot
    outside the array ([Fault]), or runs out of the recursion budget it was
    given ([Unwound]). *)
Inductive result (A : Type) : Type :=
| Done (a : A) (w : world)
| Fault
| Unwound.

Arguments Done {A} a w.
Arguments Fault {A}.
Arguments Unwound {A}.

Definition M (A : Type) : Type := world -> result A.

Global Instance M_ret : MRet M := fun A a w => Done a w.

Global Instance M_bind : MBind M := fun A B k m w =>
  match m w with
  | Done a w' => k a w'
  | Fault => Fault
  | Unwound => Unwound
  end.

Definition fault {A} : M A := fun _ => Fault.
Definition unwound {A} : M A := fun _ => Unwound.

Definition get_dev : M LSM303D := fun w => Done (dev w) w.
Definition get_env : M host := fun w => Done (env w) w.

Definition modify_dev (f : LSM303D -> LSM303D) : M unit :=
  fun w => Done tt {| dev := f (dev w); env := env w |}.

Definition modify_env (f : host -> host) : M unit :=
  fun w => Done tt {| dev := dev w; env := f (env w) |}.

(** [if (c) body] without an else branch. *)
Definition when (c : bool) (body : M unit) : M unit :=
  if c then body else mret tt.

(** ** Collaborator calls *)

(** The receive buffer after an exchange: the bytes that came in replace
    the front of what the buffer held, each stored as a [uint8_t]. *)
Definition recv_into (buf rx : list Z) : list Z :=
  take (length buf) (to_uint8 <$> rx) ++ drop (length rx) buf.

(** Modelled from the spec: [SPI::transfer(send, recv, len)] of the base
    class, which is not part of the source file: one full-duplex exchange
    of [len] bytes.  The driver either receives in place ([recv = send],
    here [in_place = true]) or passes [recv = nullptr] and drops what came
    in.  Returns the status of the exchange and the buffer afterwards. *)
Definition transfer (buf : list Z) (in_place : bool) : M (Z * list Z) :=
  h ← get_env;
  let answer := spi_wire h (length (spi_log h)) buf in
  modify_env (log_spi buf);;
  mret (answer.1, if in_place then recv_into buf answer.2 else buf).

(** A local array of [n] bytes, [uint8_t buf[n];] or a packed structure of
    that size, as the stack holds it before anything is assigned: the
    bytes the host has there for the exchange that comes next. *)
Definition local_bytes (n : nat) : M (list Z) :=
  h ← get_env;
  mret ((fun i => to_uint8 (stack h (length (spi_log h)) i)) <$> seq 0 n).

Definition hrt_absolute_time : M Z :=
  h ← get_env;
  modify_env log_clock;;
  mret (hrt_clock h (hrt_reads h)).

(** Modelled from the spec: [hrt_cancel(&_call)]: the registration with the
    host timer is cancelled; no further callout is made. *)
Definition hrt_cancel : M unit :=
  modify_dev (fun d =>
    with_call {| queued := false; delay := delay (_call d); period := period (_call d) |} d).

(** Modelled from the spec: [hrt_call_every(&_call, delay, interval,
    callout, arg)] of [drivers/drv_hrt.h], which is not part of the source
    file: the entry is queued with the host timer.  The third argument is
    the period between callouts, the member [_call.period] that [ioctl]
    assigns together with [_call_interval]; the second is the delay before
    the first callout. *)
Definition hrt_call_every (delay_ interval : Z) : M unit :=
  modify_dev (with_call {| queued := true; delay := delay_; period := interval |}).

Definition poll_notify : M unit := modify_env log_notify.

Definition orb_advertise (r : accel_report) : M unit := modify_env (log_advertise r).

Definition orb_publish (r : accel_report) : M unit := modify_env (log_publish r).

(** [new struct accel_report[n]]: [None] is [nullptr]. *)
Definition new_accel_reports (n : Z) : M (option (list accel_report)) :=
  h ← get_env;
  modify_env log_heap;;
  mret (replicate (Z.to_nat n) <$> heap h (heap_requests h) n).

(** ** The report array *)

(** [_reports[i]] as an rvalue. *)
Definition load_report (i : Z) : M accel_report :=
  d ← get_dev;
  if (0 <=? i) && (i <? Z.of_nat (length (_reports d)))
  then mret (_reports d !!! Z.to_nat i)
  else fault.

(** [_reports[i] = r]. *)
Definition store_report (i : Z) (r : accel_report) : M unit :=
  d ← get_dev;
  if (0 <=? i) && (i <? Z.of_nat (length (_reports d)))
  then modify_dev (with_reports (<[Z.to_nat i := r]> (_reports d)))
  else fault.

(** [#define INCREMENT(_x, _lim) do { _x++; if (_x >= _lim) _x = 0; } while(0)] *)
Definition INCREMENT (_x _lim : Z) : Z :=
  let x1 := to_unsigned (_x + 1) in
  if _lim <=? x1 then 0 else x1.

(** ** Member functions *)

(** The [ioctl] commands the driver tells apart; their numbers are not
    needed, any other command is [IOC_OTHER] with its number. *)
Inductive ioctl_cmd :=
| SENSORIOCSPOLLRATE
| SENSORIOCGPOLLRATE
| SENSORIOCSQUEUEDEPTH
| SENSORIOCGQUEUEDEPTH
| SENSORIOCRESET
| IOC_OTHER (cmd : Z).

(** The poll rate selectors of [drivers/drv_sensor.h] and the size of
    [struct accel_report] of [drivers/drv_accel.h].  Neither header is part
    of the source file, so the driver is read for any values of them. *)
Class platform := {
  SENSOR_POLLRATE_MANUAL : Z;
  SENSOR_POLLRATE_EXTERNAL : Z;
  SENSOR_POLLRATE_MAX : Z;
  SENSOR_POLLRATE_DEFAULT : Z;
  sizeof_accel_report : Z
}.

Section Driver.

Context {P : platform}.

(** [LSM303D::LSM303D]: the object as the constructor leaves it. *)
Definition LSM303D_new : LSM303D :=
  {| _call := {| queued := false; delay := 0; period := 0 |};
     _call_interval := 0;
     _num_reports := 0;
     _next_report := 0;
     _oldest_report := 0;
     _reports := [] |}.

(** [LSM303D::read_reg]; only [cmd[0]] is assigned, [cmd[1]] is sent as the
    stack left it. *)
Definition read_reg (reg : Z) : M Z :=
  cmd ← local_bytes 2;
  let cmd := <[0%nat := to_uint8 (Z.lor reg DIR_READ)]> cmd in
  '(_, cmd) ← transfer cmd true;
  mret (cmd !!! 1%nat).

(** [LSM303D::write_reg] *)
Definition write_reg (reg value : Z) : M unit :=
  let cmd := [to_uint8 (Z.lor reg DIR_WRITE); to_uint8 value] in
  transfer cmd false;;
  mret tt.

(** [LSM303D::modify_reg] *)
Definition modify_reg (reg clearbits setbits : Z) : M unit :=
  val ← read_reg reg;
  let val := to_uint8 (Z.land val (Z.lnot clearbits)) in
  let val := to_uint8 (Z.lor val setbits) in
  write_reg reg val.

(** [LSM303D::set_range] and [LSM303D::set_samplerate]: the bodies are
    commented out in the source. *)
Definition set_range (max_dps : Z) : M Z := mret OK.
Definition set_samplerate (frequency : Z) : M Z := mret OK.

(** [LSM303D::probe] *)
Definition probe : M Z :=
  (* read dummy value to void to clear SPI statemachine on sensor *)
  read_reg ADDR_WHO_AM_I;;
  (* verify that the device is attached and functioning *)
  v ← read_reg ADDR_WHO_AM_I;
  if v =? WHO_I_AM then mret OK else mret (- EIO).

(** [LSM303D::stop] *)
Definition stop : M unit := hrt_cancel.

(** [LSM303D::start] *)
Definition start : M unit :=
  (* make sure we are stopped first *)
  stop;;
  (* reset the report ring *)
  modify_dev (with_next_report 0);;
  modify_dev (with_oldest_report 0);;
  (* start polling at the specified rate *)
  d ← get_dev;
  hrt_call_every 1000 (_call_interval d).

(** [LSM303D::measure]; the performance counter is left out. *)
Definition measure : M unit :=
  d ← get_dev;
  (* accel_report *report = &_reports[_next_report]; *)
  let report := _next_report d in
  (* struct { cmd, status, x, y, z } raw_report_accel: eight bytes, of
     which only cmd is assigned before the exchange *)
  raw_report_accel ← local_bytes 8;
  (* fetch data from the sensor *)
  let raw_report_accel :=
    <[0%nat := to_uint8 (Z.lor (Z.lor ADDR_STATUS_A DIR_READ) ADDR_INCREMENT)]>
      raw_report_accel in
  '(_, raw) ← transfer raw_report_accel true;
  now ← hrt_absolute_time;
  old ← load_report report;
  store_report report
    {| timestamp := now;
       x_raw := int16_le (raw !!! 2%nat) (raw !!! 3%nat);
       y_raw := int16_le (raw !!! 4%nat) (raw !!! 5%nat);
       z_raw := int16_le (raw !!! 6%nat) (raw !!! 7%nat);
       si := si old |};;
  (* post a report to the ring - note, not locked *)
  modify_dev (fun d => with_next_report (INCREMENT (_next_report d) (_num_reports d)) d);;
  (* if we are running up against the oldest report, fix it *)
  d ← get_dev;
  when (_next_report d =? _oldest_report d)
    (modify_dev (fun d => with_oldest_report (INCREMENT (_oldest_report d) (_num_reports d)) d));;
  (* notify anyone waiting for data *)
  poll_notify;;
  (* publish for subscribers *)
  r ← load_report report;
  orb_publish r.

(** [LSM303D::measure_trampoline] *)
Definition measure_trampoline : M unit := measure.

(** Modelled from the spec: [SPI::init()] of the base class, which is not
    part of the source file: it runs the probe and goes on to the rest of
    the base class initialisation only if the probe passed. *)
Definition SPI_init : M Z :=
  r ← probe;
  if r =? OK then (h ← get_env; mret (cdev_init h)) else mret r.

(** [LSM303D::init] *)
Definition init : M Z :=
  (* do SPI init (and probe) first *)
  r ← SPI_init;
  if negb (r =? OK) then mret ERROR else
  (* allocate basic report buffers *)
  modify_dev (with_num_reports 2);;
  modify_dev (with_next_report 0);;
  modify_dev (with_oldest_report 0);;
  buf ← new_accel_reports 2;
  match buf with
  | None => modify_dev (with_reports []);; mret ERROR
  | Some buf =>
      modify_dev (with_reports buf);;
      (* advertise sensor topic: slot 0 is cleared and handed to uORB *)
      store_report 0 zeroed_report;;
      r ← load_report 0;
      orb_advertise r;;
      write_reg ADDR_CTRL_REG1
        (Z.lor (Z.lor (Z.lor REG1_RATE_100HZ_A REG1_X_ENABLE_A) REG1_Y_ENABLE_A)
           REG1_Z_ENABLE_A);;
      set_range 500;;
      set_samplerate 0;;
      mret OK
  end.

(** [memcpy(buffer, src, sizeof(_reports[0]))]: the first slot of the
    caller's buffer is overwritten; the caller's memory is not the
    driver's to check. *)
Definition memcpy_report (buffer : list accel_report) (src : accel_report)
  : list accel_report :=
  <[0%nat := src]> buffer.

(** The loop [while (count--) { ... }] of [LSM303D::read], carrying the
    local [ret] and the caller's buffer. *)
Fixpoint read_loop (count : nat) (ret : Z) (buffer : list accel_report)
  : M (Z * list accel_report) :=
  match count with
  | O => mret (ret, buffer)
  | S count =>
      d ← get_dev;
      if negb (_oldest_report d =? _next_report d) then
        src ← load_report (_oldest_report d);
        let buffer := memcpy_report buffer src in
        let ret := ret + sizeof_accel_report in
        modify_dev (fun d => with_oldest_report (INCREMENT (_oldest_report d) (_num_reports d)) d);;
        read_loop count ret buffer
      else read_loop count ret buffer
  end.

(** [LSM303D::read]: the caller's memory is seen as an array of report
    slots; the result is the return value and that memory afterwards. *)
Definition read (buffer : list accel_report) (buflen : Z)
  : M (Z * list accel_report) :=
  let count := to_unsigned (buflen / sizeof_accel_report) in
  (* buffer must be large enough *)
  if count <? 1 then mret (- ENOSPC, buffer) else
  d ← get_dev;
  (* if automatic measurement is enabled *)
  if 0 <? _call_interval d then
    '(ret, buffer) ← read_loop (Z.to_nat count) 0 buffer;
    (* if there was no data, warn the caller *)
    mret (if ret =? 0 then - EAGAIN else ret, buffer)
  else
    (* manual measurement *)
    modify_dev (with_next_report 0);;
    modify_dev (with_oldest_report 0);;
    measure;;
    (* measurement will have generated a report, copy it out *)
    src ← load_report 0;
    let buffer := memcpy_report buffer src in
    mret (sizeof_accel_report, buffer).

(** [LSM303D::ioctl]; [budget] bounds the depth of the calls the function
    makes to itself.  The labels of a [switch] are distinct, so the order in
    which the selectors are tested does not matter.  The superclass sees
    none of the private members: what it returns for a command the driver
    does not handle is the host's to say. *)
Fixpoint ioctl (budget : nat) (cmd : ioctl_cmd) (arg : Z) : M Z :=
  match budget with
  | O => unwound
  | S budget =>
    match cmd with
    | SENSORIOCSPOLLRATE =>
        if arg =? SENSOR_POLLRATE_MANUAL then
          (* switching to manual polling *)
          stop;;
          modify_dev (with_call_interval 0);;
          mret OK
        else if (arg =? SENSOR_POLLRATE_EXTERNAL) || (arg =? 0) then
          (* external signalling not supported; zero would be bad *)
          mret (- EINVAL)
        else if (arg =? SENSOR_POLLRATE_MAX) || (arg =? SENSOR_POLLRATE_DEFAULT) then
          (* set default/max polling rate *)
          ioctl budget SENSORIOCSPOLLRATE 250
        else
          (* adjust to a legal polling interval in Hz *)
          d ← get_dev;
          (* do we need to start internal polling? *)
          let want_start := _call_interval d =? 0 in
          (* convert hz to hrt interval via microseconds *)
          let ticks := to_unsigned (1000000 / arg) in
          (* check against maximum sane rate *)
          if ticks <? 1000 then mret (- EINVAL) else
          (* update interval for next measurement *)
          modify_dev (with_call_interval ticks);;
          modify_dev (fun d =>
            with_call {| queued := queued (_call d); delay := delay (_call d);
                         period := ticks |} d);;
          (* if we need to start the poll state machine, do it *)
          when want_start start;;
          mret OK
    | SENSORIOCGPOLLRATE =>
        d ← get_dev;
        if _call_interval d =? 0 then mret SENSOR_POLLRATE_MANUAL
        else mret (to_int (1000000 / _call_interval d))
    | SENSORIOCSQUEUEDEPTH =>
        (* account for sentinel in the ring *)
        let arg := to_unsigned (arg + 1) in
        (* lower bound is mandatory, upper bound is a sanity check *)
        if (arg <? 2) || (100 <? arg) then mret (- EINVAL) else
        (* allocate new buffer *)
        buf ← new_accel_reports arg;
        match buf with
        | None => mret (- ENOMEM)
        | Some buf =>
            (* reset the measurement state machine with the new buffer,
               free the old *)
            stop;;
            modify_dev (with_num_reports arg);;
            modify_dev (with_reports buf);;
            start;;
            mret OK
        end
    | SENSORIOCGQUEUEDEPTH =>
        d ← get_dev;
        mret (to_int (_num_reports d - 1))
    | SENSORIOCRESET =>
        mret (- EINVAL)
    | IOC_OTHER c =>
        (* give it to the superclass *)
        h ← get_env;
        mret (cdev_ioctl h c arg)
    end
  end.

(** ** What the member functions compute *)

(** The frame [read_reg] sends for a register when it makes the [k]-th
    exchange on the bus (the second byte is what the stack held), and the
    value it then returns. *)
Definition read_reg_frame (h : host) (k : nat) (reg : Z) : list Z :=
  [to_uint8 (Z.lor reg DIR_READ); to_uint8 (stack h k 1)].

Definition read_reg_value (h : host) (k : nat) (reg : Z) : Z :=
  recv_into (read_reg_frame h k reg) (spi_wire h k (read_reg_frame h k reg)).2 !!! 1%nat.

(** The frame [measure] sends on a host (the command byte and what the
    stack held in the seven bytes after it), and the report it builds from
    the structure as received, the clock reading [now] and what the slot
    held. *)
Definition measure_frame (h : host) : list Z :=
  to_uint8 (Z.lor (Z.lor ADDR_STATUS_A DIR_READ) ADDR_INCREMENT)
  :: ((fun i => to_uint8 (stack h (length (spi_log h)) i)) <$> seq 1 7).

Definition measured (raw : list Z) (now : Z) (old : accel_report) : accel_report :=
  {| timestamp := now;
     x_raw := int16_le (raw !!! 2%nat) (raw !!! 3%nat);
     y_raw := int16_le (raw !!! 4%nat) (raw !!! 5%nat);
     z_raw := int16_le (raw !!! 6%nat) (raw !!! 7%nat);
     si := si old |}.

Definition sample (h : host) (old : accel_report) : accel_report :=
  measured (recv_into (measure_frame h)
              (spi_wire h (length (spi_log h)) (measure_frame h)).2)
           (hrt_clock h (hrt_reads h)) old.

(** The cursors after a report was posted. *)
Definition post (d : LSM303D) : LSM303D :=
  let d := with_next_report (INCREMENT (_next_report d) (_num_reports d)) d in
  if _next_report d =? _oldest_report d
  then with_oldest_report (INCREMENT (_oldest_report d) (_num_reports d)) d
  else d.

(** The object after [start]. *)
Definition started (d : LSM303D) : LSM303D :=
  {| _call := {| queued := true; delay := 1000; period := _call_interval d |};
     _call_interval := _call_interval d;
     _num_reports := _num_reports d;
     _next_report := 0;
     _oldest_report := 0;
     _reports := _reports d |}.

(** The object after [stop]. *)
Definition stopped (d : LSM303D) : LSM303D :=
  with_call {| queued := false; delay := delay (_call d); period := period (_call d) |} d.

(** A slot index the array has. *)
Definition in_array (i : Z) (d : LSM303D) : Prop :=
  0 <= i < Z.of_nat (length (_reports d)).

(** The object after an accepted numeric poll rate. *)
Definition rate_set (ticks : Z) (d : LSM303D) : LSM303D :=
  let want_start := _call_interval d =? 0 in
  let d := with_call_interval ticks d in
  let d := with_call {| queued := queued (_call d); delay := delay (_call d);
                        period := ticks |} d in
  if want_start then started d else d.

(** The object after the ring was replaced by [buf] with [n] slots. *)
Definition ring_replaced (n : Z) (buf : list accel_report) (d : LSM303D) : LSM303D :=
  started (with_reports buf (with_num_reports n (stopped d))).

(** A rate in Hz, as opposed to a selector or zero. *)
Definition numeric_rate (r : Z) : Prop :=
  0 < r < UINT_MODULUS /\
  r <> SENSOR_POLLRATE_MANUAL /\ r <> SENSOR_POLLRATE_EXTERNAL /\
  r <> SENSOR_POLLRATE_MAX /\ r <> SENSOR_POLLRATE_DEFAULT.

(** *** The ring as a queue *)

(** The ring is in order: it has at least one slot, the array has
    [_num_reports] slots and both cursors index it. *)
Definition ring_ok (d : LSM303D) : Prop :=
  0 < _num_reports d < UINT_MODULUS /\
  Z.of_nat (length (_reports d)) = _num_reports d /\
  0 <= _oldest_report d < _num_reports d /\
  0 <= _next_report d < _num_reports d.

(** The number of reports written and not yet read: the distance from
    the read cursor forward to the write cursor. *)
Definition unread (d : LSM303D) : Z :=
  if _oldest_report d <=? _next_report d
  then _next_report d - _oldest_report d
  else _next_report d + _num_reports d - _oldest_report d.

(** [u] consecutive slots of a circular array, from slot [o] on and around
    the end. *)
Definition window {A} (l : list A) (o u : nat) : list A :=
  take u (drop o (l ++ l)).

(** The unread reports, oldest first: the slots from the read cursor
    forward to the write cursor. *)
Definition pending (d : LSM303D) : list accel_report :=
  window (_reports d) (Z.to_nat (_oldest_report d)) (Z.to_nat (unread d)).

(** The last [n] elements of a list. *)
Definition keep_last {A} (n : nat) (l : list A) : list A :=
  drop (length l - n) l.

(** What the caller's buffer holds once [read] has copied the first [k] of
    the reports [p] out, each to the start of the buffer. *)
Definition copied_out (buffer p : list accel_report) (k : nat) : list accel_report :=
  match k with
  | O => buffer
  | S j => <[0%nat := p !!! j]> buffer
  end.

(** The unread reports are the ones published last, oldest first. *)
Definition latest_unread (w : world) : Prop :=
  pending (dev w) = reverse (take (length (pending (dev w))) (orb_published (env w))).

Definition ring_inv (w : world) : Prop := ring_ok (dev w) /\ latest_unread w.

(** The two's complement reading of a 16-bit pattern. *)
Definition signed16 (u : Z) : Z := if u <? 32768 then u else u - 65536.

(** The labels of the poll rate [switch] are distinct, as C++ requires. *)
Definition selectors_distinct : Prop :=
  SENSOR_POLLRATE_MANUAL <> 0 /\ SENSOR_POLLRATE_EXTERNAL <> 0 /\
  SENSOR_POLLRATE_MAX <> 0 /\ SENSOR_POLLRATE_DEFAULT <> 0 /\
  SENSOR_POLLRATE_MANUAL <> SENSOR_POLLRATE_EXTERNAL /\
  SENSOR_POLLRATE_MANUAL <> SENSOR_POLLRATE_MAX /\
  SENSOR_POLLRATE_MANUAL <> SENSOR_POLLRATE_DEFAULT /\
  SENSOR_POLLRATE_EXTERNAL <> SENSOR_POLLRATE_MAX /\
  SENSOR_POLLRATE_EXTERNAL <> SENSOR_POLLRATE_DEFAULT /\
  SENSOR_POLLRATE_MAX <> SENSOR_POLLRATE_DEFAULT.

(** The ring [init] sets up around a fresh array. *)
Definition initial_ring (buf : list accel_report) (d : LSM303D) : LSM303D :=
  {| _call := _call d;
     _call_interval := _call_interval d;
     _num_reports := 2;
     _next_report := 0;
     _oldest_report := 0;
     _reports := buf |}.

(** *** Sequences of calls *)

(** What can happen to the driver once it is initialised: the calls of
    the file interface, the callout of the timer, and the private
    [start] and [stop]. *)
Inductive operation :=
| op_read (buffer : list accel_report) (buflen : Z)
| op_ioctl (cmd : ioctl_cmd) (arg : Z)
| op_measure
| op_start
| op_stop.

Definition perform (budget : nat) (o : operation) : M unit :=
  match o with
  | op_read buffer buflen => read buffer buflen;; mret tt
  | op_ioctl cmd arg => ioctl budget cmd arg;; mret tt
  | op_measure => measure_trampoline
  | op_start => start
  | op_stop => stop
  end.

Fixpoint perform_all (budget : nat) (os : list operation) : M unit :=
  match os with
  | [] => mret tt
  | o :: os => perform budget o;; perform_all budget os
  end.

End Driver.

(** ** A test bench *)

(** Concrete collaborators and driver objects for the examples. *)
Module Bench.

(** One choice of selectors and report size. *)
Definition px4 : platform :=
  {| SENSOR_POLLRATE_MANUAL := 1000000;
     SENSOR_POLLRATE_EXTERNAL := 1000001;
     SENSOR_POLLRATE_MAX := 1000002;
     SENSOR_POLLRATE_DEFAULT := 1000003;
     sizeof_accel_report := 40 |}.

(** A device that answers the identity register with [0x49] and the
    [k]-th exchange otherwise with the axes [k], [2k], [3k]. *)
Definition wire (status : Z) (k : nat) (tx : list Z) : Z * list Z :=
  if tx !!! 0%nat =? 0x8F then (status, [0xFF; 0x49])
  else (status, [0xFF; 0x0F; Z.of_nat k; 0; 2 * Z.of_nat k; 0; 3 * Z.of_nat k; 0]).

(** A host whose bus exchanges return [status], whose clock advances by
    1000 with every reading, whose stack holds [0xAA] everywhere and whose
    allocations succeed or not. *)
Definition bench (status : Z) (memory : bool) : host :=
  {| spi_wire := wire status;
     spi_log := [];
     stack := fun _ _ => 0xAA;
     hrt_clock := fun k => 1000 * (Z.of_nat k + 1);
     hrt_reads := 0;
     heap := fun _ _ => if memory then Some zeroed_report else None;
     heap_requests := 0;
     cdev_init := OK;
     cdev_ioctl := fun _ _ => -25;
     poll_notified := 0;
     orb_advertised := [];
     orb_published := [] |}.

(** A driver with an empty ring of [n] slots and poll interval
    [interval]; the timer entry is queued when [interval] is not 0. *)
Definition driver (n interval : Z) : LSM303D :=
  {| _call := {| queued := negb (interval =? 0); delay := 1000; period := interval |};
     _call_interval := interval;
     _num_reports := n;
     _next_report := 0;
     _oldest_report := 0;
     _reports := replicate (Z.to_nat n) zeroed_report |}.

(** The report the bench produces at its [k]-th measurement, [k] from 0. *)
Definition R (k : Z) : accel_report :=
  {| timestamp := 1000 * (k + 1); x_raw := k; y_raw := 2 * k; z_raw := 3 * k; si := 0 |}.

(** Worlds: a running driver with a ring of three slots; a driver in
    manual mode; a running driver on a bus whose exchanges fail (the
    bytes still arrive); a
    running driver on a host without memory; a driver just constructed;
    that driver after [init]; the running driver after four callouts. *)
Definition running : world := {| dev := driver 3 4000; env := bench OK true |}.
Definition manual : world := {| dev := driver 2 0; env := bench OK true |}.
Definition bus_down : world := {| dev := driver 2 4000; env := bench (- EIO) true |}.
Definition no_memory : world := {| dev := driver 2 4000; env := bench OK false |}.
Definition constructed : world := {| dev := LSM303D_new; env := bench OK true |}.

Definition world_of (r : result unit) : world :=
  match r with
  | Done _ w => w
  | _ => constructed
  end.

Definition initialised : world :=
  match init constructed with
  | Done _ w => w
  | _ => constructed
  end.

Definition four_ticks : list operation :=
  [op_measure; op_measure; op_measure; op_measure].

Definition after_four_ticks : world :=
  world_of (perform_all (P := px4) 2 four_ticks running).

(** A bus with no device on it: every exchange returns zeros. *)
Definition no_device : world :=
  {| dev := LSM303D_new;
     env := {| spi_wire := fun _ tx => (OK, (fun _ => 0) <$> tx);
               spi_log := [];
               stack := fun _ _ => 0xAA;
               hrt_clock := fun k => 1000 * (Z.of_nat k + 1);
               hrt_reads := 0;
               heap := fun _ _ => Some zeroed_report;
               heap_requests := 0;
               cdev_init := OK;
               cdev_ioctl := fun _ _ => -25;
               poll_notified := 0;
               orb_advertised := [];
               orb_published := [] |} |}.

(** A running driver on a bus whose exchanges fail and deliver nothing:
    the receive buffer stays as it was sent. *)
Definition bus_dead : world :=
  {| dev := driver 2 4000;
     env := {| spi_wire := fun _ _ => (- EIO, []);
               spi_log := [];
               stack := fun _ _ => 0xAA;
               hrt_clock := fun k => 1000 * (Z.of_nat k + 1);
               hrt_reads := 0;
               heap := fun _ _ => Some zeroed_report;
               heap_requests := 0;
               cdev_init := OK;
               cdev_ioctl := fun _ _ => -25;
               poll_notified := 0;
               orb_advertised := [];
               orb_published := [] |} |}.

(** A driver just constructed on a host without memory. *)
Definition constructed_no_memory : world :=
  {| dev := LSM303D_new; env := bench OK false |}.

(** Two reports a caller's buffer may hold before a read. *)
Definition B0 : accel_report :=
  {| timestamp := -1; x_raw := -1; y_raw := -1; z_raw := -1; si := -1 |}.
Definition B1 : accel_report :=
  {| timestamp := -2; x_raw := -2; y_raw := -2; z_raw := -2; si := -2 |}.

End Bench.

(** * Properties *)

Section Properties.

Context {P : platform}.

(** Reduce the projections of updated records. *)
Ltac fields :=
  cbn [with_call with_call_interval with_num_reports with_next_report
       with_oldest_report with_reports
       _call _call_interval _num_reports _next_report _oldest_report _reports] in *.

(** Split on the integer tests of the goal. *)
Ltac split_leb :=
  repeat match goal with
         | |- context [Z.leb ?a ?b] => destruct (Z.leb_spec a b)
         | |- context [Z.eqb ?a ?b] => destruct (Z.eqb_spec a b)
         end.

Lemma in_array_test i d :
  in_array i d -> (0 <=? i) && (i <? Z.of_nat (length (_reports d))) = true.
Proof. unfold in_array. intros H. apply andb_true_iff. lia. Qed.

Lemma not_in_array_test i d :
  ~ in_array i d -> (0 <=? i) && (i <? Z.of_nat (length (_reports d))) = false.
Proof. unfold in_array. intros H. apply andb_false_iff. lia. Qed.

Lemma read_reg_run reg w :
  read_reg reg w =
  Done (read_reg_value (env w) (length (spi_log (env w))) reg)
       {| dev := dev w;
          env := log_spi (read_reg_frame (env w) (length (spi_log (env w))) reg) (env w) |}.
Proof. reflexivity. Qed.

Lemma probe_run w :
  probe w =
  Done (if read_reg_value (env w) (S (length (spi_log (env w)))) ADDR_WHO_AM_I =? WHO_I_AM
        then OK else - EIO)
       {| dev := dev w;
          env := log_spi (read_reg_frame (env w) (S (length (spi_log (env w)))) ADDR_WHO_AM_I)
                   (log_spi (read_reg_frame (env w) (length (spi_log (env w))) ADDR_WHO_AM_I)
                      (env w)) |}.
Proof.
  unfold probe. unfold mbind at 1, M_bind at 1. rewrite read_reg_run.
  unfold mbind, M_bind. rewrite read_reg_run. cbn [env dev log_spi spi_log spi_wire length].
  destruct (_ =? WHO_I_AM); reflexivity.
Qed.

Lemma stop_run w : stop w = Done tt {| dev := stopped (dev w); env := env w |}.
Proof. reflexivity. Qed.

Lemma start_run w : start w = Done tt {| dev := started (dev w); env := env w |}.
Proof. reflexivity. Qed.

Lemma measure_run w :
  in_array (_next_report (dev w)) (dev w) ->
  let i := _next_report (dev w) in
  let r := sample (env w) (_reports (dev w) !!! Z.to_nat i) in
  measure w =
  Done tt
    {| dev := post (with_reports (<[Z.to_nat i := r]> (_reports (dev w))) (dev w));
       env := log_publish r
                (log_notify (log_clock (log_spi (measure_frame (env w)) (env w)))) |}.
Proof.
  intros Hi i r.
  assert (Hlen : forall x, length (<[Z.to_nat i := x]> (_reports (dev w)))
                           = length (_reports (dev w)))
    by (intros; apply length_insert).
  assert (Hget : forall x, <[Z.to_nat i := x]> (_reports (dev w)) !!! Z.to_nat i = x).
  { intros x. apply list_lookup_total_correct, list_lookup_insert_eq.
    unfold in_array in Hi. subst i. lia. }
  unfold i in Hlen, Hget.
  subst r i. unfold sample, measured, measure_frame, post.
  unfold measure, local_bytes, transfer, hrt_absolute_time, load_report, store_report,
    poll_notify, orb_publish, when.
  unfold mbind, M_bind, mret, M_ret, get_dev, get_env, modify_env, modify_dev.
  cbn [dev env].
  rewrite (in_array_test _ _ Hi).
  cbn [dev env with_reports with_next_report with_oldest_report _reports _next_report
       _oldest_report _num_reports log_spi log_clock hrt_clock hrt_reads].
  rewrite (in_array_test _ _ Hi).
  cbn [dev env with_reports with_next_report with_oldest_report _reports _next_report
       _oldest_report _num_reports].
  destruct (INCREMENT _ (_num_reports (dev w)) =? _oldest_report (dev w));
    cbn [dev env with_reports with_next_report with_oldest_report _reports _next_report
         _oldest_report _num_reports];
    rewrite Hlen, (in_array_test _ _ Hi), Hget; reflexivity.
Qed.

Lemma measure_fault w :
  ~ in_array (_next_report (dev w)) (dev w) -> measure w = Fault.
Proof.
  intros Hi.
  unfold measure, local_bytes, transfer, hrt_absolute_time, load_report.
  unfold mbind, M_bind, mret, M_ret, get_dev, get_env, modify_env, modify_dev.
  cbn [dev env]. rewrite (not_in_array_test _ _ Hi). reflexivity.
Qed.

(** *** [ioctl], case by case *)

Lemma ioctl_pollrate_manual b w :
  ioctl (S b) SENSORIOCSPOLLRATE SENSOR_POLLRATE_MANUAL w =
  Done OK {| dev := with_call_interval 0 (stopped (dev w)); env := env w |}.
Proof. cbn [ioctl]. rewrite Z.eqb_refl. reflexivity. Qed.


Lemma ioctl_pollrate_numeric b r w :
  numeric_rate r ->
  ioctl (S b) SENSORIOCSPOLLRATE r w =
  if 1000000 / r <? 1000 then Done (- EINVAL) w
  else Done OK {| dev := rate_set (1000000 / r) (dev w); env := env w |}.
Proof.
  intros ([Hr0 Hr1] & Hm & He & Hx & Hd). cbn [ioctl].
  destruct (Z.eqb_spec r SENSOR_POLLRATE_MANUAL); [congruence|].
  destruct (Z.eqb_spec r SENSOR_POLLRATE_EXTERNAL); [congruence|].
  destruct (Z.eqb_spec r 0); [lia|].
  destruct (Z.eqb_spec r SENSOR_POLLRATE_MAX); [congruence|].
  destruct (Z.eqb_spec r SENSOR_POLLRATE_DEFAULT); [congruence|].
  cbn [orb].
  assert (Hq : to_unsigned (1000000 / r) = 1000000 / r).
  { unfold to_unsigned, UINT_MODULUS. apply Z.mod_small. split.
    - apply Z.div_pos; lia.
    - apply Z.le_lt_trans with 1000000; [|lia].
      apply Z.div_le_upper_bound; nia. }
  unfold mbind, M_bind, get_dev. rewrite Hq.
  destruct (1000000 / r <? 1000); [reflexivity|].
  unfold rate_set, when, modify_dev, mret, M_ret. cbn [dev env with_call_interval _call_interval].
  destruct (_call_interval (dev w) =? 0); [rewrite start_run|]; reflexivity.
Qed.

Lemma ioctl_queue_depth_range b n w :
  0 <= n < UINT_MODULUS -> n < 1 \/ 99 < n ->
  ioctl (S b) SENSORIOCSQUEUEDEPTH n w = Done (- EINVAL) w.
Proof.
  intros Hn Hout. cbn [ioctl].
  assert (Hw : to_unsigned (n + 1) < 2 \/ 100 < to_unsigned (n + 1)).
  { unfold to_unsigned, UINT_MODULUS in *.
    destruct (Z.eq_dec n (2 ^ 32 - 1)) as [->|Hne].
    - left. reflexivity.
    - rewrite Z.mod_small by lia. lia. }
  destruct (Z.ltb_spec (to_unsigned (n + 1)) 2); [reflexivity|].
  destruct (Z.ltb_spec 100 (to_unsigned (n + 1))); [reflexivity|lia].
Qed.

Lemma ioctl_queue_depth_alloc b n w :
  1 <= n <= 99 ->
  ioctl (S b) SENSORIOCSQUEUEDEPTH n w =
  match heap (env w) (heap_requests (env w)) (n + 1) with
  | None => Done (- ENOMEM) {| dev := dev w; env := log_heap (env w) |}
  | Some x =>
      Done OK {| dev := ring_replaced (n + 1) (replicate (Z.to_nat (n + 1)) x) (dev w);
                 env := log_heap (env w) |}
  end.
Proof.
  intros Hn. cbn [ioctl].
  assert (Hw : to_unsigned (n + 1) = n + 1).
  { unfold to_unsigned, UINT_MODULUS. apply Z.mod_small. lia. }
  rewrite Hw.
  destruct (Z.ltb_spec (n + 1) 2); [lia|].
  destruct (Z.ltb_spec 100 (n + 1)); [lia|].
  cbn [orb]. unfold new_accel_reports, mbind, M_bind, get_env, modify_env, mret, M_ret.
  cbn [dev env].
  destruct (heap (env w) (heap_requests (env w)) (n + 1)); reflexivity.
Qed.

Lemma ioctl_get_queue_depth b a w :
  ioctl (S b) SENSORIOCGQUEUEDEPTH a w = Done (to_int (_num_reports (dev w) - 1)) w.
Proof. reflexivity. Qed.

(** ** The identity probe *)

(** C8: [probe] reads the identity register twice (two frames that start
    with [0x8F]; their second byte is never assigned and is sent as the
    stack left it); what it returns is decided by the second value alone,
    the byte the second exchange leaves in [cmd[1]]: [OK] if and only if
    that value is [0x49], and [-EIO] for every other value. *)
Theorem probe_accepts_only_who_i_am w :
  let h := env w in
  let k := length (spi_log h) in
  let first := [0x8F; to_uint8 (stack h k 1)] in
  let again := [0x8F; to_uint8 (stack h (S k) 1)] in
  let second := recv_into again (spi_wire h (S k) again).2 !!! 1%nat in
  exists ret w',
    probe w = Done ret w' /\
    spi_log (env w') = again :: first :: spi_log h /\
    dev w' = dev w /\
    (ret = OK <-> second = 0x49) /\
    (second <> 0x49 -> ret = - EIO).
Proof.
  intros h k first again second. rewrite probe_run. fold h k.
  change (read_reg_value h (S k) ADDR_WHO_AM_I) with second.
  change (read_reg_frame h (S k) ADDR_WHO_AM_I) with again.
  change (read_reg_frame h k ADDR_WHO_AM_I) with first.
  eexists _, _. split; [reflexivity|]. cbn [dev env log_spi spi_log].
  repeat split.
  - destruct (Z.eqb_spec second WHO_I_AM) as [E|E]; [intros _; exact E|discriminate].
  - intros E. unfold WHO_I_AM. rewrite E. reflexivity.
  - intros E. destruct (Z.eqb_spec second WHO_I_AM) as [E'|_]; [contradiction|reflexivity].
Qed.

(** ** The scheduler *)

(** C4, as the code has it: [start] queues the callout with a first delay
    of 1000 microseconds, whatever the configured interval is; the
    configured interval is the period of the following callouts. *)
Theorem start_first_delay_is_1000 w :
  exists w',
    start w = Done tt w' /\
    queued (_call (dev w')) = true /\
    delay (_call (dev w')) = 1000 /\
    period (_call (dev w')) = _call_interval (dev w) /\
    _call_interval (dev w') = _call_interval (dev w) /\
    _next_report (dev w') = 0 /\ _oldest_report (dev w') = 0.
Proof. rewrite start_run. eexists. repeat split. Qed.


Lemma rate_floor r : 0 < r -> 1000000 / r < 1000 <-> 1000 < r.
Proof.
  intros Hr. split; intros H.
  - destruct (Z.le_gt_cases r 1000) as [Hle|Hgt]; [|exact Hgt].
    assert (1000 <= 1000000 / r) by (apply Z.div_le_lower_bound; lia). lia.
  - apply Z.div_lt_upper_bound; lia.
Qed.

(** C7: a numeric rate [r] becomes the interval [1000000 / r]; the
    interval is below 1000 exactly for rates above 1000 Hz, and then the
    call returns [-EINVAL] and changes nothing; every other rate is
    accepted, becomes the interval and the period, and starts the
    scheduler if it was stopped (interval 0). *)
Theorem pollrate_numeric_floor b r w :
  numeric_rate r ->
  let ticks := 1000000 / r in
  (ticks < 1000 <-> 1000 < r) /\
  (1000 < r -> ioctl (S b) SENSORIOCSPOLLRATE r w = Done (- EINVAL) w) /\
  (r <= 1000 ->
   exists w',
     ioctl (S b) SENSORIOCSPOLLRATE r w = Done OK w' /\
     _call_interval (dev w') = ticks /\
     period (_call (dev w')) = ticks /\
     (_call_interval (dev w) = 0 -> queued (_call (dev w')) = true) /\
     (_call_interval (dev w) <> 0 -> queued (_call (dev w')) = queued (_call (dev w)))).
Proof.
  intros Hr ticks.
  assert (Hpos : 0 < r) by (destruct Hr as [[? _] _]; assumption).
  pose proof (rate_floor r Hpos) as Hfloor. fold ticks in Hfloor.
  split; [exact Hfloor|]. split.
  - intros Hgt. rewrite (ioctl_pollrate_numeric _ _ _ Hr). fold ticks.
    destruct (Z.ltb_spec ticks 1000); [reflexivity|]. apply Hfloor in Hgt. lia.
  - intros Hle. rewrite (ioctl_pollrate_numeric _ _ _ Hr). fold ticks.
    destruct (Z.ltb_spec ticks 1000) as [Hlt|_]; [apply Hfloor in Hlt; lia|].
    eexists. split; [reflexivity|]. cbn [dev]. unfold rate_set.
    destruct (Z.eqb_spec (_call_interval (dev w)) 0) as [E|E];
      repeat split; intros; try reflexivity; try contradiction.
Qed.

(** ** Resizing the ring *)

(** C6: [SENSORIOCSQUEUEDEPTH] with a depth outside 1..99 returns
    [-EINVAL], and with a depth in range but no memory for the new array
    returns [-ENOMEM]; in both cases the driver object is what it was:
    same array, same capacity, same cursors, same timer registration. *)
Theorem queue_depth_failure_keeps_ring b n w :
  0 <= n < UINT_MODULUS ->
  (n < 1 \/ 99 < n ->
   ioctl (S b) SENSORIOCSQUEUEDEPTH n w = Done (- EINVAL) w) /\
  (1 <= n <= 99 ->
   heap (env w) (heap_requests (env w)) (n + 1) = None ->
   exists w',
     ioctl (S b) SENSORIOCSQUEUEDEPTH n w = Done (- ENOMEM) w' /\
     dev w' = dev w).
Proof.
  intros Hn. split.
  - intros Hout. apply ioctl_queue_depth_range; assumption.
  - intros Hin Hheap. rewrite (ioctl_queue_depth_alloc _ _ _ Hin), Hheap.
    eexists. split; reflexivity.
Qed.

Lemma to_int_small z : 0 <= z < 2 ^ 31 -> to_int z = z.
Proof.
  intros Hz. unfold to_int, to_unsigned, UINT_MODULUS.
  rewrite Z.mod_small by lia.
  destruct (Z.ltb_spec z (2 ^ 31)); lia.
Qed.

(** C9: for a depth [n] in 1..99 for which the allocation succeeds,
    [SENSORIOCSQUEUEDEPTH] returns [OK] and leaves a ring of [n + 1]
    slots, and [SENSORIOCGQUEUEDEPTH] then returns [n]. *)
Theorem queue_depth_round_trip b b' a n w :
  1 <= n <= 99 ->
  heap (env w) (heap_requests (env w)) (n + 1) <> None ->
  exists w',
    ioctl (S b) SENSORIOCSQUEUEDEPTH n w = Done OK w' /\
    _num_reports (dev w') = n + 1 /\
    Z.of_nat (length (_reports (dev w'))) = n + 1 /\
    ioctl (S b') SENSORIOCGQUEUEDEPTH a w' = Done n w'.
Proof.
  intros Hn Hheap. rewrite (ioctl_queue_depth_alloc _ _ _ Hn).
  destruct (heap (env w) (heap_requests (env w)) (n + 1)) as [x|]; [|congruence].
  eexists. split; [reflexivity|]. cbn [dev]. repeat split.
  - cbn. rewrite length_replicate. lia.
  - rewrite ioctl_get_queue_depth. cbn [dev ring_replaced started _num_reports
      with_reports with_num_reports].
    replace (n + 1 - 1) with n by lia. rewrite to_int_small by lia. reflexivity.
Qed.

(** ** The measurement step *)

(** C2, as the code has it: the status of the bus transfer is not looked
    at.  When the transfer fails, the step still stores a report in the
    slot at the write cursor, advances [_next_report] (and
    [_oldest_report] when the two meet), wakes the waiters and publishes
    the report.  The report is decoded from the receive structure as the
    exchange left it: from the bytes received and, where the reply did
    not reach, from the bytes the stack held there. *)
Theorem measure_ignores_transfer_status w :
  in_array (_next_report (dev w)) (dev w) ->
  (spi_wire (env w) (length (spi_log (env w))) (measure_frame (env w))).1 <> OK ->
  let slot := Z.to_nat (_next_report (dev w)) in
  let r := sample (env w) (_reports (dev w) !!! slot) in
  exists w',
    measure w = Done tt w' /\
    _reports (dev w') = <[slot := r]> (_reports (dev w)) /\
    _next_report (dev w') = INCREMENT (_next_report (dev w)) (_num_reports (dev w)) /\
    _oldest_report (dev w') =
      (if _next_report (dev w') =? _oldest_report (dev w)
       then INCREMENT (_oldest_report (dev w)) (_num_reports (dev w))
       else _oldest_report (dev w)) /\
    poll_notified (env w') = S (poll_notified (env w)) /\
    orb_published (env w') = r :: orb_published (env w).
Proof.
  intros Hi _ slot r. rewrite (measure_run _ Hi). fold slot. fold r.
  eexists. split; [reflexivity|]. cbn [dev env]. unfold post.
  cbn [with_next_report with_reports _next_report _oldest_report _num_reports _reports].
  destruct (_ =? _oldest_report (dev w)) eqn:E;
    cbn [with_next_report with_oldest_report with_reports _next_report _oldest_report
         _num_reports _reports];
    rewrite ?E; repeat split.
Qed.

(** ** Reading *)


(** ** The ring as a queue *)

Lemma INCREMENT_spec x N :
  0 < N < UINT_MODULUS -> 0 <= x < N ->
  INCREMENT x N = if x + 1 =? N then 0 else x + 1.
Proof.
  intros HN Hx. unfold INCREMENT, to_unsigned.
  rewrite Z.mod_small by lia.
  destruct (Z.leb_spec N (x + 1)), (Z.eqb_spec (x + 1) N); lia.
Qed.

Lemma INCREMENT_in_range x N :
  0 < N < UINT_MODULUS -> 0 <= x < N -> 0 <= INCREMENT x N < N.
Proof.
  intros HN Hx. rewrite INCREMENT_spec by assumption.
  destruct (Z.eqb_spec (x + 1) N); lia.
Qed.

Lemma ring_ok_same d d' :
  _num_reports d' = _num_reports d ->
  length (_reports d') = length (_reports d) ->
  _oldest_report d' = _oldest_report d ->
  _next_report d' = _next_report d ->
  ring_ok d -> ring_ok d'.
Proof. unfold ring_ok. intros -> -> -> ->. tauto. Qed.

Lemma ring_ok_started d :
  0 < _num_reports d < UINT_MODULUS ->
  Z.of_nat (length (_reports d)) = _num_reports d ->
  ring_ok (started d).
Proof. unfold ring_ok. cbn. lia. Qed.

Lemma ring_ok_next_in_array d : ring_ok d -> in_array (_next_report d) d.
Proof. unfold ring_ok, in_array. lia. Qed.

Lemma ring_ok_oldest_in_array d : ring_ok d -> in_array (_oldest_report d) d.
Proof. unfold ring_ok, in_array. lia. Qed.

Lemma post_fields d :
  _num_reports (post d) = _num_reports d /\ _reports (post d) = _reports d /\
  _call (post d) = _call d /\ _call_interval (post d) = _call_interval d.
Proof.
  unfold post. cbn [with_next_report _next_report _oldest_report _num_reports].
  destruct (_ =? _); repeat split.
Qed.

Lemma ring_ok_post d : ring_ok d -> ring_ok (post d).
Proof.
  intros (HN & Hlen & Ho & Hn).
  pose proof (INCREMENT_in_range _ _ HN Hn) as Hn'.
  pose proof (INCREMENT_in_range _ _ HN Ho) as Ho'.
  unfold post. cbn [with_next_report _next_report _oldest_report _num_reports].
  destruct (_ =? _); unfold ring_ok; cbn; lia.
Qed.

(** *** Windows of a circular array *)

Lemma double_lookup {A} (l : list A) (j : nat) :
  (l ++ l) !! j = if decide (j < length l)%nat then l !! j else l !! (j - length l)%nat.
Proof.
  case_decide.
  - apply lookup_app_l. assumption.
  - apply lookup_app_r. lia.
Qed.

Lemma window_lookup {A} (l : list A) o u k :
  window l o u !! k = if decide (k < u)%nat then (l ++ l) !! (o + k)%nat else None.
Proof. unfold window. rewrite lookup_take. case_decide; [apply lookup_drop|reflexivity]. Qed.

Lemma window_length {A} (l : list A) o u :
  (o + u <= 2 * length l)%nat -> length (window l o u) = u.
Proof.
  intros H. unfold window. rewrite length_take, length_drop, length_app. lia.
Qed.

Lemma window_pop {A} `{!Inhabited A} (l : list A) o u :
  (o < length l)%nat -> (0 < u <= length l)%nat ->
  window l o u =
  l !!! o :: window l (if decide (o + 1 = length l)%nat then 0 else o + 1)%nat (u - 1).
Proof.
  intros Ho Hu. apply list_eq. intros k. rewrite lookup_cons. destruct k as [|k].
  - rewrite window_lookup, double_lookup.
    repeat case_decide; try lia.
    replace (o + 0)%nat with o by lia. apply list_lookup_lookup_total_lt. assumption.
  - rewrite !window_lookup, !double_lookup.
    repeat case_decide; try lia; try reflexivity; f_equal; lia.
Qed.

Lemma window_push {A} (l : list A) o u n x :
  (o < length l)%nat -> (u < length l)%nat ->
  n = (if decide (o + u < length l)%nat then o + u else o + u - length l)%nat ->
  window (<[n := x]> l) o (S u) = window l o u ++ [x].
Proof.
  intros Ho Hu ->. apply list_eq. intros k.
  rewrite lookup_app, !window_lookup, !double_lookup, length_insert.
  destruct (decide (k < u)%nat) as [Hk|Hk].
  - rewrite decide_True by lia.
    case_decide.
    + rewrite list_lookup_insert_ne by (case_decide; lia).
      destruct (l !! (o + k)%nat) eqn:E; [reflexivity|].
      apply lookup_ge_None in E. lia.
    + rewrite list_lookup_insert_ne by (case_decide; lia).
      destruct (l !! (o + k - length l)%nat) eqn:E; [reflexivity|].
      apply lookup_ge_None in E. lia.
  - rewrite window_length by lia.
    destruct (decide (k = u)) as [->|Hne].
    + rewrite decide_True by lia. replace (u - u)%nat with 0%nat by lia. cbn [lookup list_lookup].
      repeat case_decide; try lia; apply list_lookup_insert_eq; lia.
    + rewrite decide_False by lia.
      destruct (k - u)%nat eqn:E; [lia|]. reflexivity.
Qed.

(** *** The unread reports *)

Lemma unread_range d : ring_ok d -> 0 <= unread d <= _num_reports d - 1.
Proof.
  intros (HN & Hlen & Ho & Hn). unfold unread.
  destruct (Z.leb_spec (_oldest_report d) (_next_report d)); lia.
Qed.

Lemma pending_length d : ring_ok d -> Z.of_nat (length (pending d)) = unread d.
Proof.
  intros Hok. pose proof (unread_range d Hok) as Hu.
  destruct Hok as (HN & Hlen & Ho & Hn).
  unfold pending. rewrite window_length; lia.
Qed.

Lemma pending_nil d : ring_ok d -> _oldest_report d = _next_report d -> pending d = [].
Proof.
  intros Hok E. unfold pending, unread. rewrite E, Z.leb_refl, Z.sub_diag. reflexivity.
Qed.

Lemma pending_pop d :
  ring_ok d -> _oldest_report d <> _next_report d ->
  pending d =
  _reports d !!! Z.to_nat (_oldest_report d)
  :: pending (with_oldest_report (INCREMENT (_oldest_report d) (_num_reports d)) d).
Proof.
  intros Hok Hne. pose proof (unread_range d Hok) as Hu.
  destruct Hok as (HN & Hlen & Ho & Hn).
  unfold pending at 1.
  rewrite window_pop by (unfold unread in *; destruct (Z.leb_spec (_oldest_report d) (_next_report d)); lia).
  f_equal. unfold pending. cbn [with_oldest_report _reports _oldest_report].
  rewrite INCREMENT_spec by assumption.
  f_equal.
  - case_decide; destruct (Z.eqb_spec (_oldest_report d + 1) (_num_reports d)); lia.
  - unfold unread. fields. split_leb; lia.
Qed.

Lemma keep_last_all {A} n (l : list A) : (length l <= n)%nat -> keep_last n l = l.
Proof. intros H. unfold keep_last. replace (length l - n)%nat with 0%nat by lia. reflexivity. Qed.

Lemma pending_post d r :
  ring_ok d ->
  pending (post (with_reports (<[Z.to_nat (_next_report d) := r]> (_reports d)) d)) =
  keep_last (Z.to_nat (_num_reports d - 1)) (pending d ++ [r]).
Proof.
  intros Hok. pose proof (unread_range d Hok) as Hu.
  pose proof (pending_length d Hok) as Hpl.
  destruct Hok as (HN & Hlen & Ho & Hn).
  set (l := _reports d) in *. set (N := _num_reports d) in *.
  set (o := _oldest_report d) in *. set (n := _next_report d) in *.
  assert (Hpush : window (<[Z.to_nat n := r]> l) (Z.to_nat o) (S (Z.to_nat (unread d)))
                  = pending d ++ [r]).
  { unfold pending. fold l o. apply window_push; [lia..|].
    unfold unread in *. fold o n N in Hu |- *.
    destruct (Z.leb_spec o n); case_decide; lia. }
  unfold post.
  cbn [with_next_report with_reports _next_report _oldest_report _num_reports _reports].
  fold n N o. rewrite !INCREMENT_spec by (fold N; lia).
  destruct (Z.eqb_spec (if n + 1 =? N then 0 else n + 1) o) as [Hfull|Hroom].
  - (* the ring was full: the oldest report goes *)
    assert (HuN : unread d = N - 1).
    { unfold unread. fold o n N. destruct (Z.eqb_spec (n + 1) N), (Z.leb_spec o n); lia. }
    unfold keep_last. rewrite length_app. cbn [length].
    replace (length (pending d) + 1 - Z.to_nat (N - 1))%nat with 1%nat by lia.
    rewrite <- Hpush.
    rewrite (window_pop _ (Z.to_nat o)) by (rewrite ?length_insert; lia).
    cbn [drop]. rewrite drop_0. unfold pending.
    cbn [with_oldest_report with_next_report with_reports _reports _oldest_report].
    rewrite length_insert. fold l. f_equal.
    + case_decide; destruct (Z.eqb_spec (o + 1) N); lia.
    + unfold unread at 1. fields. fold N o n. split_leb; lia.
  - (* there was room *)
    assert (HuN : unread d < N - 1).
    { unfold unread in *. fold o n N in Hu |- *.
      destruct (Z.eqb_spec (n + 1) N), (Z.leb_spec o n); lia. }
    rewrite keep_last_all by (rewrite length_app; cbn [length]; lia).
    rewrite <- Hpush. unfold pending.
    cbn [with_next_report with_reports _reports _oldest_report]. fold l o. f_equal.
    unfold unread. fields. fold o n N. split_leb; lia.
Qed.


Lemma pending_same d d' :
  _num_reports d' = _num_reports d -> _reports d' = _reports d ->
  _oldest_report d' = _oldest_report d -> _next_report d' = _next_report d ->
  pending d' = pending d.
Proof. unfold pending, unread. intros -> -> -> ->. reflexivity. Qed.

Lemma read_loop_run count : forall ret buffer w,
  ring_ok (dev w) ->
  let p := pending (dev w) in
  let k := Nat.min count (length p) in
  exists w',
    read_loop count ret buffer w =
      Done (ret + Z.of_nat k * sizeof_accel_report, copied_out buffer p k) w' /\
    ring_ok (dev w') /\
    pending (dev w') = drop k p /\
    env w' = env w /\
    _call_interval (dev w') = _call_interval (dev w).
Proof.
  induction count as [|count IH]; intros ret buffer w Hok p k.
  - exists w. subst k. cbn [Nat.min copied_out drop read_loop]. rewrite Z.add_0_r.
    split_and!; [reflexivity|exact Hok|reflexivity..].
  - cbn [read_loop]. unfold mbind at 1, M_bind at 1, get_dev at 1.
    destruct (Z.eqb_spec (_oldest_report (dev w)) (_next_report (dev w))) as [E|E]; cbn [negb].
    + destruct (IH ret buffer w Hok) as (w' & Hrun & Hok' & Hp & Henv & Hint).
      subst p k. rewrite (pending_nil _ Hok E) in *. cbn [length] in *.
      rewrite Nat.min_0_r in *. exists w'. split_and!; assumption.
    + unfold load_report, mbind, M_bind, get_dev, modify_dev, mret, M_ret.
      rewrite (in_array_test _ _ (ring_ok_oldest_in_array _ Hok)).
      set (w1 := {| dev := with_oldest_report
                      (INCREMENT (_oldest_report (dev w)) (_num_reports (dev w))) (dev w);
                    env := env w |}).
      assert (Hok1 : ring_ok (dev w1)).
      { destruct Hok as (HN & Hlen & Ho & Hn).
        pose proof (INCREMENT_in_range _ _ HN Ho). unfold ring_ok; cbn; lia. }
      destruct (IH (ret + sizeof_accel_report)
                  (memcpy_report buffer (_reports (dev w) !!! Z.to_nat (_oldest_report (dev w))))
                  w1 Hok1) as (w' & Hrun & Hok' & Hp & Henv & Hint).
      exists w'. rewrite Hrun. subst p k. rewrite (pending_pop _ Hok E).
      change (pending (with_oldest_report _ (dev w))) with (pending (dev w1)).
      set (p1 := pending (dev w1)) in *. cbn [length Nat.min drop].
      split_and!; try assumption. f_equal. f_equal; [lia|].
      destruct (Nat.min count (length p1)) as [|j]; cbn [copied_out]; [reflexivity|].
      unfold memcpy_report. rewrite list_insert_insert_eq. reflexivity.
Qed.

Lemma auto_read_run buffer buflen w :
  0 < sizeof_accel_report ->
  0 < _call_interval (dev w) ->
  ring_ok (dev w) ->
  1 <= to_unsigned (buflen / sizeof_accel_report) ->
  let p := pending (dev w) in
  let k := Nat.min (Z.to_nat (to_unsigned (buflen / sizeof_accel_report))) (length p) in
  exists w',
    read buffer buflen w =
      Done (if decide (k = 0%nat) then - EAGAIN else Z.of_nat k * sizeof_accel_report,
            copied_out buffer p k) w' /\
    ring_ok (dev w') /\
    pending (dev w') = drop k p /\
    env w' = env w.
Proof.
  intros Hsize Hauto Hok Hcount p k. unfold read.
  destruct (Z.ltb_spec (to_unsigned (buflen / sizeof_accel_report)) 1); [lia|].
  unfold mbind at 1, M_bind at 1, get_dev at 1.
  destruct (Z.ltb_spec 0 (_call_interval (dev w))); [|lia].
  destruct (read_loop_run (Z.to_nat (to_unsigned (buflen / sizeof_accel_report))) 0 buffer w Hok)
    as (w' & Hrun & Hok' & Hp & Henv & _).
  fold p k in Hrun, Hp. unfold mbind, M_bind. rewrite Hrun. exists w'.
  split_and!; try assumption. unfold mret, M_ret. f_equal. f_equal.
  rewrite Z.add_0_l. case_decide as Hk.
  - rewrite Hk. reflexivity.
  - destruct (Z.eqb_spec (Z.of_nat k * sizeof_accel_report) 0); [nia|reflexivity].
Qed.


Lemma latest_push {A} (p pub : list A) r m :
  p = reverse (take (length p) pub) ->
  let p' := keep_last m (p ++ [r]) in
  p' = reverse (take (length p') (r :: pub)).
Proof.
  intros Hp p'.
  assert (Hq : length (take (length p) pub) = length p).
  { rewrite Hp at 2. rewrite length_reverse. reflexivity. }
  assert (Hsnoc : p ++ [r] = reverse (take (S (length p)) (r :: pub))).
  { cbn [take]. rewrite reverse_cons, <- Hp. reflexivity. }
  subst p'. unfold keep_last. rewrite Hsnoc at 1 2.
  rewrite drop_reverse, length_reverse, length_drop, take_take.
  rewrite length_app. cbn [length]. rewrite length_take. cbn [length]. f_equal. f_equal.
  rewrite length_take in Hq. lia.
Qed.

Lemma latest_drop {A} (p pub : list A) k :
  p = reverse (take (length p) pub) ->
  drop k p = reverse (take (length (drop k p)) pub).
Proof.
  intros Hp.
  assert (Hq : length (take (length p) pub) = length p).
  { rewrite Hp at 2. rewrite length_reverse. reflexivity. }
  rewrite length_drop. rewrite Hp at 1. rewrite drop_reverse, take_take, Hq.
  f_equal. f_equal. lia.
Qed.

Lemma latest_unread_nil w : pending (dev w) = [] -> latest_unread w.
Proof. unfold latest_unread. intros ->. reflexivity. Qed.

Lemma ring_inv_same w w' :
  _num_reports (dev w') = _num_reports (dev w) ->
  _reports (dev w') = _reports (dev w) ->
  _oldest_report (dev w') = _oldest_report (dev w) ->
  _next_report (dev w') = _next_report (dev w) ->
  orb_published (env w') = orb_published (env w) ->
  ring_inv w -> ring_inv w'.
Proof.
  intros HN Hl Ho Hn Hpub [Hok Hlate]. split.
  - revert Hok. apply ring_ok_same; congruence.
  - unfold latest_unread. rewrite (pending_same _ _ HN Hl Ho Hn), Hpub. exact Hlate.
Qed.

Lemma ring_inv_started d h :
  0 < _num_reports d < UINT_MODULUS ->
  Z.of_nat (length (_reports d)) = _num_reports d ->
  ring_inv {| dev := started d; env := h |}.
Proof.
  intros HN Hlen. split.
  - apply ring_ok_started; assumption.
  - apply latest_unread_nil, pending_nil; [apply ring_ok_started; assumption|reflexivity].
Qed.

Lemma measure_keeps_inv w :
  ring_inv w -> exists w', measure w = Done tt w' /\ ring_inv w'.
Proof.
  intros [Hok Hlate]. rewrite (measure_run _ (ring_ok_next_in_array _ Hok)).
  eexists. split; [reflexivity|].
  assert (Hok' : ring_ok (post (with_reports
            (<[Z.to_nat (_next_report (dev w)) :=
                 sample (env w) (_reports (dev w) !!! Z.to_nat (_next_report (dev w)))]>
               (_reports (dev w))) (dev w)))).
  { apply ring_ok_post. revert Hok. apply ring_ok_same; try reflexivity.
    cbn. apply length_insert. }
  split; [exact Hok'|]. unfold latest_unread. cbn [dev env log_publish orb_published].
  rewrite (pending_post _ _ Hok). apply latest_push, Hlate.
Qed.


(** X6 (the part of C1 about writing): a measurement appends its report
    to the unread ones, and drops the oldest of them when that makes more
    than [_num_reports - 1].  Its report is the one decoded from the
    eight-byte receive structure as the exchange left it (the command
    byte [0xE7] and seven unassigned stack bytes went out), stamped with
    the clock reading. *)
Lemma measure_drops_oldest w :
  ring_ok (dev w) ->
  let r := sample (env w) (_reports (dev w) !!! Z.to_nat (_next_report (dev w))) in
  exists w',
    measure w = Done tt w' /\
    pending (dev w') = keep_last (Z.to_nat (_num_reports (dev w) - 1)) (pending (dev w) ++ [r]) /\
    Z.of_nat (length (pending (dev w'))) <= _num_reports (dev w') - 1.
Proof.
  intros Hok r. rewrite (measure_run _ (ring_ok_next_in_array _ Hok)). fold r.
  eexists. split; [reflexivity|]. cbn [dev].
  split; [apply pending_post, Hok|].
  assert (Hok' : ring_ok (post (with_reports
            (<[Z.to_nat (_next_report (dev w)) := r]> (_reports (dev w))) (dev w)))).
  { apply ring_ok_post. revert Hok. apply ring_ok_same; try reflexivity.
    cbn. apply length_insert. }
  rewrite (pending_length _ Hok'). apply unread_range, Hok'.
Qed.

(** X8 (the part of C1 about reading that holds): in automatic mode a
    [read] with room for exactly one report returns the oldest unread
    report and leaves the others unread, in their order. *)
Lemma read_one_report_is_oldest buffer buflen w r rest :
  0 < sizeof_accel_report ->
  0 < _call_interval (dev w) ->
  ring_ok (dev w) ->
  to_unsigned (buflen / sizeof_accel_report) = 1 ->
  pending (dev w) = r :: rest ->
  exists w',
    read buffer buflen w = Done (sizeof_accel_report, <[0%nat := r]> buffer) w' /\
    pending (dev w') = rest.
Proof.
  intros Hsize Hauto Hok Hcount Hp.
  destruct (auto_read_run buffer buflen w Hsize Hauto Hok) as (w' & Hrun & _ & Hp' & _);
    [lia|].
  rewrite Hcount, Hp in Hrun, Hp'. change (Z.to_nat 1) with 1%nat in Hrun, Hp'.
  cbn [length Nat.min copied_out drop] in Hrun, Hp'.
  rewrite decide_False in Hrun by discriminate.
  exists w'. split; [|exact Hp'].
  rewrite Hrun. f_equal. f_equal. lia.
Qed.

(** ** The invariant of the ring *)

Lemma read_keeps_inv buffer buflen w :
  ring_inv w ->
  exists out w', read buffer buflen w = Done out w' /\ ring_inv w'.
Proof.
  intros Hinv. pose proof Hinv as [Hok Hlate]. unfold read.
  destruct (_ <? 1); [eexists _, _; split; [reflexivity|exact Hinv]|].
  unfold mbind at 1, M_bind at 1, get_dev at 1.
  destruct (0 <? _call_interval (dev w)).
  - destruct (read_loop_run
                (Z.to_nat (to_unsigned (buflen / sizeof_accel_report))) 0 buffer w Hok)
      as (w' & Hrun & Hok' & Hp & Henv & _).
    unfold mbind, M_bind. rewrite Hrun. eexists _, _. split; [reflexivity|].
    split; [exact Hok'|]. unfold latest_unread. rewrite Hp, Henv.
    apply latest_drop, Hlate.
  - unfold mbind, M_bind, modify_dev. cbn [dev env].
    set (w0 := {| dev := with_oldest_report 0 (with_next_report 0 (dev w)); env := env w |}).
    assert (Hinv0 : ring_inv w0).
    { assert (Hok0 : ring_ok (dev w0)).
      { destruct Hok as (HN & Hlen & Ho & Hn). unfold ring_ok; cbn; lia. }
      split; [exact Hok0|]. apply latest_unread_nil, pending_nil; [exact Hok0|reflexivity]. }
    destruct (measure_keeps_inv w0 Hinv0) as (w' & Hrun & Hinv').
    rewrite Hrun. unfold load_report, mbind, M_bind, get_dev, mret, M_ret.
    assert (Hin : in_array 0 (dev w')).
    { destruct Hinv' as [(HN & Hlen & _) _]. unfold in_array. lia. }
    rewrite (in_array_test _ _ Hin). eexists _, _. split; [reflexivity|exact Hinv'].
Qed.

(** An [ioctl] never leaves the array: it returns with the ring in order,
    unless its budget runs out. *)
Lemma ioctl_keeps_inv budget : forall cmd arg w,
  ring_inv w ->
  match ioctl budget cmd arg w with
  | Done _ w' => ring_inv w'
  | Fault => False
  | Unwound => True
  end.
Proof.
  induction budget as [|budget IH]; intros cmd arg w Hinv; [exact I|].
  pose proof Hinv as [(HN & Hlen & Ho & Hn) _].
  destruct cmd; cbn [ioctl]; try exact Hinv.
  - destruct (arg =? SENSOR_POLLRATE_MANUAL).
    { cbn. revert Hinv. apply ring_inv_same; reflexivity. }
    destruct ((arg =? SENSOR_POLLRATE_EXTERNAL) || (arg =? 0)); [exact Hinv|].
    destruct ((arg =? SENSOR_POLLRATE_MAX) || (arg =? SENSOR_POLLRATE_DEFAULT));
      [apply IH, Hinv|].
    unfold mbind at 1, M_bind at 1, get_dev at 1.
    destruct (_ <? 1000); [exact Hinv|].
    unfold mbind, M_bind, modify_dev, when, mret, M_ret. cbn [dev env].
    destruct (_call_interval (dev w) =? 0).
    + rewrite start_run. cbn [dev env]. apply ring_inv_started; cbn; assumption.
    + revert Hinv. apply ring_inv_same; reflexivity.
  - unfold mbind, M_bind, get_dev.
    destruct (_call_interval (dev w) =? 0); exact Hinv.
  - destruct (Z.ltb_spec (to_unsigned (arg + 1)) 2); [exact Hinv|].
    destruct (Z.ltb_spec 100 (to_unsigned (arg + 1))); [exact Hinv|].
    cbn [orb]. unfold new_accel_reports, mbind, M_bind, get_env, modify_env, mret, M_ret.
    cbn [dev env].
    destruct (heap (env w) (heap_requests (env w)) (to_unsigned (arg + 1))) as [x|];
      cbn [fmap option_fmap option_map].
    + unfold modify_dev. rewrite stop_run. cbn [dev env]. rewrite start_run. cbn [dev env].
      apply ring_inv_started; cbn; [unfold UINT_MODULUS; lia|].
      rewrite length_replicate. lia.
    + revert Hinv. apply ring_inv_same; reflexivity.
Qed.

(** With selectors that are not 250, two levels of [ioctl] are enough. *)
Lemma ioctl_returns b cmd arg w :
  SENSOR_POLLRATE_MAX <> 250 -> SENSOR_POLLRATE_DEFAULT <> 250 ->
  exists ret w', ioctl (S (S b)) cmd arg w = Done ret w'.
Proof.
  intros Hmax Hdef.
  assert (Hnum : forall b' a w0,
    (a =? SENSOR_POLLRATE_MAX) || (a =? SENSOR_POLLRATE_DEFAULT) = false ->
    exists ret w', ioctl (S b') SENSORIOCSPOLLRATE a w0 = Done ret w').
  { intros b' a w0 Ha. cbn [ioctl]. rewrite Ha.
    destruct (a =? SENSOR_POLLRATE_MANUAL); [eexists _, _; reflexivity|].
    destruct ((a =? SENSOR_POLLRATE_EXTERNAL) || (a =? 0)); [eexists _, _; reflexivity|].
    unfold mbind at 1, M_bind at 1, get_dev at 1.
    destruct (_ <? 1000); [eexists _, _; reflexivity|].
    unfold mbind, M_bind, modify_dev, when, mret, M_ret. cbn [dev env].
    destruct (_call_interval (dev w0) =? 0); [rewrite start_run|]; eexists _, _; reflexivity. }
  destruct cmd; try (eexists _, _; reflexivity).
  - destruct ((arg =? SENSOR_POLLRATE_MAX) || (arg =? SENSOR_POLLRATE_DEFAULT)) eqn:Ha.
    + cbn [ioctl]. rewrite Ha.
      destruct (arg =? SENSOR_POLLRATE_MANUAL); [eexists _, _; reflexivity|].
      destruct ((arg =? SENSOR_POLLRATE_EXTERNAL) || (arg =? 0)); [eexists _, _; reflexivity|].
      apply Hnum. apply orb_false_iff. split; apply Z.eqb_neq; congruence.
    + apply Hnum, Ha.
  - cbn [ioctl]. unfold mbind, M_bind, get_dev.
    destruct (_call_interval (dev w) =? 0); eexists _, _; reflexivity.
  - cbn [ioctl]. destruct (_ || _); [eexists _, _; reflexivity|].
    unfold new_accel_reports, mbind, M_bind, get_env, modify_env, mret, M_ret.
    cbn [dev env].
    destruct (heap (env w) (heap_requests (env w)) (to_unsigned (arg + 1))) as [x|];
      cbn [fmap option_fmap option_map]; eexists _, _; reflexivity.
Qed.

Lemma perform_keeps_inv b o w :
  ring_inv w ->
  match perform (S (S b)) o w with
  | Done _ w' => ring_inv w'
  | Fault => False
  | Unwound => SENSOR_POLLRATE_MAX = 250 \/ SENSOR_POLLRATE_DEFAULT = 250
  end.
Proof.
  intros Hinv. destruct o as [buffer buflen|cmd arg| | |]; cbn [perform].
  - destruct (read_keeps_inv buffer buflen w Hinv) as (out & w' & Hrun & Hinv').
    unfold mbind, M_bind. rewrite Hrun. exact Hinv'.
  - pose proof (ioctl_keeps_inv (S (S b)) cmd arg w Hinv) as Hsafe.
    unfold mbind, M_bind.
    destruct (Z.eq_dec SENSOR_POLLRATE_MAX 250) as [|Hmax];
      [destruct (ioctl _ _ _ _); cbn; tauto|].
    destruct (Z.eq_dec SENSOR_POLLRATE_DEFAULT 250) as [|Hdef];
      [destruct (ioctl _ _ _ _); cbn; tauto|].
    destruct (ioctl_returns b cmd arg w Hmax Hdef) as (ret & w' & Hrun).
    rewrite Hrun in *. exact Hsafe.
  - destruct (measure_keeps_inv w Hinv) as (w' & Hrun & Hinv').
    unfold measure_trampoline. rewrite Hrun. exact Hinv'.
  - rewrite start_run. destruct Hinv as [(HN & Hlen & _) _].
    apply ring_inv_started; assumption.
  - rewrite stop_run. revert Hinv. apply ring_inv_same; reflexivity.
Qed.

Lemma perform_all_keeps_inv b os : forall w,
  ring_inv w ->
  match perform_all (S (S b)) os w with
  | Done _ w' => ring_inv w'
  | Fault => False
  | Unwound => SENSOR_POLLRATE_MAX = 250 \/ SENSOR_POLLRATE_DEFAULT = 250
  end.
Proof.
  induction os as [|o os IH]; intros w Hinv; [exact Hinv|].
  cbn [perform_all]. unfold mbind, M_bind.
  pose proof (perform_keeps_inv b o w Hinv) as Hstep.
  destruct (perform (S (S b)) o w) as [[] w'| |]; [apply IH, Hstep|exact Hstep..].
Qed.

Lemma init_ring_inv w w' : init w = Done OK w' -> ring_inv w'.
Proof.
  unfold init. unfold mbind at 1, M_bind at 1.
  unfold SPI_init. unfold mbind at 1, M_bind at 1. rewrite probe_run.
  destruct (_ =? WHO_I_AM); cbn [negb].
  2:{ unfold mret, M_ret. change (- EIO =? OK) with false. cbn. discriminate. }
  change (OK =? OK) with true. cbv iota.
  unfold mbind at 1, M_bind at 1, get_env at 1, mret at 1, M_ret at 1.
  destruct (negb (_ =? OK)); [discriminate|].
  unfold new_accel_reports, mbind, M_bind, get_env, modify_env, modify_dev, mret, M_ret.
  cbn [dev env heap heap_requests log_spi].
  destruct (heap (env w) (heap_requests (env w)) 2) as [x|];
    cbn [fmap option_fmap option_map]; [|discriminate].
  unfold store_report, write_reg, transfer, set_range, set_samplerate,
    mbind, M_bind, get_dev, get_env, modify_env, modify_dev, mret, M_ret.
  cbn. intros [= <-].
  assert (Hok : ring_ok (dev {| dev := with_reports [zeroed_report; x]
                                  (with_oldest_report 0 (with_next_report 0
                                     (with_num_reports 2 (dev w))));
                                env := env w |})).
  { unfold ring_ok, UINT_MODULUS. cbn. lia. }
  split; [exact Hok|]. apply latest_unread_nil. reflexivity.
Qed.

(** C10: once [init] has returned [OK], and after every sequence of
    [read], [measure], [start], [stop] and [ioctl] calls, the array has
    [_num_reports] slots and both cursors are below [_num_reports]; no
    call touches a slot outside the array.  (A call can fail to return
    only if a poll rate selector is the number 250, which sends [ioctl]
    back to itself for ever.) *)
Theorem cursors_stay_in_array b w0 w1 os :
  init w0 = Done OK w1 ->
  ring_ok (dev w1) /\
  match perform_all (S (S b)) os w1 with
  | Done _ w2 => ring_ok (dev w2)
  | Fault => False
  | Unwound => SENSOR_POLLRATE_MAX = 250 \/ SENSOR_POLLRATE_DEFAULT = 250
  end.
Proof.
  intros Hinit. pose proof (init_ring_inv _ _ Hinit) as Hinv.
  split; [apply Hinv|].
  pose proof (perform_all_keeps_inv b os w1 Hinv) as Hall.
  destruct (perform_all (S (S b)) os w1); [apply Hall|exact Hall..].
Qed.

(** X13 (the part of C1 that holds): once [init] has returned [OK], after
    every sequence of calls the ring holds at most [_num_reports - 1]
    unread reports, and they are the reports published last, oldest
    first. *)
Lemma unread_are_latest_published b w0 w1 os :
  init w0 = Done OK w1 ->
  match perform_all (S (S b)) os w1 with
  | Done _ w2 =>
      Z.of_nat (length (pending (dev w2))) <= _num_reports (dev w2) - 1 /\
      pending (dev w2) =
        reverse (take (length (pending (dev w2))) (orb_published (env w2)))
  | Fault => False
  | Unwound => SENSOR_POLLRATE_MAX = 250 \/ SENSOR_POLLRATE_DEFAULT = 250
  end.
Proof.
  intros Hinit. pose proof (init_ring_inv _ _ Hinit) as Hinv.
  pose proof (perform_all_keeps_inv b os w1 Hinv) as Hall.
  destruct (perform_all (S (S b)) os w1) as [[] w2| |]; [|exact Hall..].
  destruct Hall as [Hok Hlate]. split; [|exact Hlate].
  rewrite (pending_length _ Hok). apply unread_range, Hok.
Qed.

(** ** More of the driver *)

(** *** Bytes *)

Lemma to_uint8_mod z : to_uint8 z = z mod 256.
Proof. unfold to_uint8. change 255 with (Z.ones 8). apply Z.land_ones. lia. Qed.

Lemma to_uint8_range z : 0 <= to_uint8 z < 256.
Proof. rewrite to_uint8_mod. apply Z.mod_pos_bound. lia. Qed.

Lemma to_uint8_testbit z i :
  0 <= i -> Z.testbit (to_uint8 z) i = Z.testbit z i && (i <? 8).
Proof.
  intros Hi. unfold to_uint8. change 255 with (Z.ones 8).
  rewrite Z.land_spec, Z.testbit_ones_nonneg by lia. reflexivity.
Qed.

Lemma recv_into_length buf rx : length (recv_into buf rx) = length buf.
Proof.
  unfold recv_into. rewrite length_app, length_take, length_drop, length_fmap. lia.
Qed.

Lemma recv_into_byte buf rx i :
  Forall (fun b => 0 <= b < 256) buf ->
  (i < length buf)%nat ->
  0 <= recv_into buf rx !!! i < 256.
Proof.
  intros Hbuf Hi.
  assert (Hall : Forall (fun b => 0 <= b < 256) (recv_into buf rx)).
  { unfold recv_into. apply Forall_app. split.
    - apply Forall_take, Forall_fmap, Forall_forall. intros x _. apply to_uint8_range.
    - apply Forall_drop, Hbuf. }
  assert (Hlt : (i < length (recv_into buf rx))%nat) by (rewrite recv_into_length; exact Hi).
  apply (Forall_lookup_1 _ _ i _ Hall). apply list_lookup_lookup_total_lt, Hlt.
Qed.

Lemma int16_le_range lo hi : -32768 <= int16_le lo hi < 32768.
Proof.
  unfold int16_le.
  pose proof (to_uint8_range lo) as Hlo. pose proof (to_uint8_range hi) as Hhi.
  set (a := to_uint8 lo) in *. set (b := to_uint8 hi) in *.
  rewrite Z.shiftl_mul_pow2 by lia. change (2 ^ 8) with 256.
  assert (Hu : 0 <= Z.lor a (b * 256) <= a + b * 256).
  { split; [apply Z.lor_nonneg; lia|].
    pose proof (Z.add_lor_land a (b * 256)).
    assert (0 <= Z.land a (b * 256)) by (apply Z.land_nonneg; lia). lia. }
  set (u := Z.lor a (b * 256)) in *.
  destruct (Z.testbit u 15) eqn:E.
  - apply Z.testbit_true in E; [|lia]. change (2 ^ 15) with 32768 in E.
    assert (32768 <= u).
    { destruct (Z.lt_ge_cases u 32768) as [Hlt|]; [|assumption].
      rewrite Z.div_small in E by lia. discriminate. }
    lia.
  - apply Z.testbit_false in E; [|lia]. change (2 ^ 15) with 32768 in E.
    assert (u < 32768).
    { destruct (Z.lt_ge_cases u 32768) as [|Hge]; [assumption|].
      assert (Hq : u / 32768 = 1).
      { symmetry. apply (Z.div_unique u 32768 1 (u - 32768)); lia. }
      rewrite Hq in E. discriminate. }
    lia.
Qed.


Lemma lor_read_bit reg : 0 <= reg < 128 -> Z.lor reg DIR_READ = reg + 128.
Proof.
  intros Hreg. change DIR_READ with 128.
  assert (Hland : Z.land reg 128 = 0).
  { apply Z.bits_inj'. intros n Hn. rewrite Z.land_spec, Z.bits_0.
    destruct (Z.eq_dec n 7) as [->|Hne].
    - rewrite (proj2 (Z.testbit_false reg 7 ltac:(lia))); [reflexivity|].
      change (2 ^ 7) with 128. rewrite Z.div_small by lia. reflexivity.
    - change 128 with (2 ^ 7). rewrite Z.pow2_bits_false by lia. apply andb_false_r. }
  pose proof (Z.add_lor_land reg 128). lia.
Qed.

(** X1: [read_reg] on a 7-bit register address makes one exchange: it
    sends the address with the read bit (bit 7) set, followed by a second
    byte that is never assigned and goes out as the stack left it.  It
    returns a byte: the second byte received, or that stack byte when the
    bus returned fewer than two bytes.  The driver object is untouched. *)
Theorem read_reg_protocol reg w :
  0 <= reg < 128 ->
  let h := env w in
  let k := length (spi_log h) in
  let unassigned := to_uint8 (stack h k 1) in
  exists v w',
    read_reg reg w = Done v w' /\
    dev w' = dev w /\
    spi_log (env w') = [reg + 128; unassigned] :: spi_log h /\
    0 <= v < 256 /\
    v = match (spi_wire h k [reg + 128; unassigned]).2 !! 1%nat with
        | Some b => b mod 256
        | None => unassigned
        end.
Proof.
  intros Hreg h k unassigned. rewrite read_reg_run. fold h k.
  eexists _, _. split; [reflexivity|].
  assert (Hframe : read_reg_frame h k reg = [reg + 128; unassigned]).
  { unfold read_reg_frame. rewrite (lor_read_bit _ Hreg), to_uint8_mod.
    rewrite Z.mod_small by lia. reflexivity. }
  cbn [dev env log_spi spi_log]. rewrite Hframe.
  split; [reflexivity|]. split; [reflexivity|]. split.
  - unfold read_reg_value. rewrite Hframe. apply recv_into_byte.
    + repeat constructor; try lia; apply to_uint8_range.
    + cbn. lia.
  - unfold read_reg_value. rewrite Hframe.
    destruct (spi_wire h k [reg + 128; unassigned]) as [st rx].
    cbn [snd]. unfold recv_into.
    destruct rx as [|b0 [|b1 rx]]; cbn; rewrite ?to_uint8_mod; reflexivity.
Qed.

(** X2: [write_reg] on a 7-bit register address sends the address
    unchanged (bit 7 clear) and the value as a byte, in one exchange; what
    the bus returns is dropped and the driver object is untouched. *)
Theorem write_reg_protocol reg value w :
  0 <= reg < 128 ->
  write_reg reg value w =
  Done tt {| dev := dev w; env := log_spi [reg; value mod 256] (env w) |}.
Proof.
  intros Hreg. unfold write_reg, transfer, mbind, M_bind, mret, M_ret, get_env, modify_env.
  cbn [dev env]. change DIR_WRITE with 0. rewrite Z.lor_0_r, !to_uint8_mod.
  rewrite (Z.mod_small reg) by lia. reflexivity.
Qed.

(** X3: [modify_reg] reads the register, then writes it back with the bits
    of [clearbits] cleared and then the bits of [setbits] set: a bit of
    the written byte is set if it is in [setbits], or was set in the value
    read and is not in [clearbits].  Two exchanges: the read frame (the
    address with bit 7 set and a byte the stack held), then the write
    frame; the driver object is untouched. *)
Theorem modify_reg_bits reg clearbits setbits w :
  let h := env w in
  let k := length (spi_log h) in
  let asked := [to_uint8 (Z.lor reg DIR_READ); to_uint8 (stack h k 1)] in
  let old := recv_into asked (spi_wire h k asked).2 !!! 1%nat in
  exists v w',
    modify_reg reg clearbits setbits w = Done tt w' /\
    dev w' = dev w /\
    spi_log (env w') = [to_uint8 (Z.lor reg DIR_WRITE); v] :: asked :: spi_log h /\
    0 <= v < 256 /\
    forall i, 0 <= i < 8 ->
      Z.testbit v i = Z.testbit setbits i || (Z.testbit old i && negb (Z.testbit clearbits i)).
Proof.
  intros h k asked old. unfold modify_reg, mbind, M_bind. rewrite read_reg_run. fold h k.
  change (read_reg_value h k reg) with old. change (read_reg_frame h k reg) with asked.
  unfold write_reg, transfer, mbind, M_bind, mret, M_ret, get_env, modify_env.
  cbn [dev env log_spi spi_log]. eexists _, _. split; [reflexivity|].
  cbn [dev env log_spi spi_log].
  split; [reflexivity|]. split; [reflexivity|]. split.
  - apply to_uint8_range.
  - intros i Hi. rewrite !to_uint8_testbit, Z.lor_spec, to_uint8_testbit by lia.
    rewrite Z.land_spec, Z.lnot_spec by lia.
    destruct (Z.ltb_spec i 8); [|lia].
    rewrite !andb_true_r. apply orb_comm.
Qed.

Lemma testbit_15 u : 0 <= u < 65536 -> Z.testbit u 15 = (32768 <=? u).
Proof.
  intros Hu. destruct (Z.leb_spec 32768 u) as [Hge|Hlt].
  - apply Z.testbit_true; [lia|]. change (2 ^ 15) with 32768.
    replace (u / 32768) with 1; [reflexivity|].
    apply (Z.div_unique u 32768 1 (u - 32768)); lia.
  - apply Z.testbit_false; [lia|]. change (2 ^ 15) with 32768.
    rewrite Z.div_small by lia. reflexivity.
Qed.

Lemma lor_high_byte lo hi :
  0 <= lo < 256 -> 0 <= hi -> Z.lor lo (Z.shiftl hi 8) = lo + 256 * hi.
Proof.
  intros Hlo Hhi.
  assert (Hland : Z.land lo (Z.shiftl hi 8) = 0).
  { apply Z.bits_inj'. intros n Hn. rewrite Z.land_spec, Z.bits_0.
    destruct (Z.lt_ge_cases n 8) as [Hlt|Hge].
    - rewrite Z.shiftl_spec_low by lia. apply andb_false_r.
    - rewrite (proj2 (Z.testbit_false lo n Hn)); [reflexivity|].
      assert (256 <= 2 ^ n) by (change 256 with (2 ^ 8); apply Z.pow_le_mono_r; lia).
      rewrite Z.div_small by lia. reflexivity. }
  pose proof (Z.add_lor_land lo (Z.shiftl hi 8)) as Hadd.
  rewrite Z.shiftl_mul_pow2 in * by lia. change (2 ^ 8) with 256 in *. lia.
Qed.

Lemma int16_le_value lo hi :
  0 <= lo < 256 -> 0 <= hi < 256 -> int16_le lo hi = signed16 (lo + 256 * hi).
Proof.
  intros Hlo Hhi. unfold int16_le, signed16.
  rewrite !to_uint8_mod, !Z.mod_small by lia.
  rewrite lor_high_byte by lia. rewrite testbit_15 by lia.
  destruct (Z.leb_spec 32768 (lo + 256 * hi)), (Z.ltb_spec (lo + 256 * hi) 32768); lia.
Qed.

Lemma measure_frame_length h : length (measure_frame h) = 8%nat.
Proof. reflexivity. Qed.

Lemma recv_into_full buf rx :
  length rx = length buf -> recv_into buf rx = to_uint8 <$> rx.
Proof.
  intros Hlen. unfold recv_into. rewrite (drop_ge buf) by lia. rewrite app_nil_r.
  apply take_ge. rewrite length_fmap. lia.
Qed.

(** X4: the report [measure] stores holds the clock reading as its
    timestamp and, for an 8-byte reply [c; s; xl; xh; yl; yh; zl; zh], the
    two's complement readings of the little-endian byte pairs as its raw
    axes; the command echo [c] and the status byte [s] are not looked at,
    and the other members of the slot keep what they held. *)
Theorem measure_decodes_little_endian w c s xl xh yl yh zl zh :
  in_array (_next_report (dev w)) (dev w) ->
  (spi_wire (env w) (length (spi_log (env w))) (measure_frame (env w))).2
    = [c; s; xl; xh; yl; yh; zl; zh] ->
  Forall (fun b => 0 <= b < 256) [xl; xh; yl; yh; zl; zh] ->
  let slot := Z.to_nat (_next_report (dev w)) in
  exists w',
    measure w = Done tt w' /\
    _reports (dev w') !! slot =
      Some {| timestamp := hrt_clock (env w) (hrt_reads (env w));
              x_raw := signed16 (xl + 256 * xh);
              y_raw := signed16 (yl + 256 * yh);
              z_raw := signed16 (zl + 256 * zh);
              si := si (_reports (dev w) !!! slot) |}.
Proof.
  intros Hi Hrx Hbytes slot. rewrite (measure_run _ Hi). fold slot.
  eexists. split; [reflexivity|]. cbn [dev].
  destruct (post_fields (with_reports
    (<[slot := sample (env w) (_reports (dev w) !!! slot)]> (_reports (dev w))) (dev w)))
    as (_ & -> & _).
  cbn [with_reports _reports].
  rewrite list_lookup_insert_eq by (unfold in_array in Hi; subst slot; lia).
  f_equal. unfold sample, measured. rewrite Hrx.
  inversion Hbytes as [|? ? Hxl H1]; subst. inversion H1 as [|? ? Hxh H2]; subst.
  inversion H2 as [|? ? Hyl H3]; subst. inversion H3 as [|? ? Hyh H4]; subst.
  inversion H4 as [|? ? Hzl H5]; subst. inversion H5 as [|? ? Hzh _]; subst.
  rewrite recv_into_full by reflexivity.
  cbn [fmap list_fmap lookup_total list_lookup_total].
  rewrite !to_uint8_mod, !Z.mod_small by lia.
  rewrite !int16_le_value by lia. reflexivity.
Qed.


(** X5: a measurement changes one slot and the cursors, nothing else: the
    timer entry, the poll interval and the capacity are what they were,
    every slot but the one at the write cursor keeps its report, the raw
    axes of the new report are 16-bit signed values, and the step makes
    exactly one bus exchange (of eight bytes: the command byte [0xE7],
    then seven bytes that are never assigned and go out as the stack left
    them) and one clock reading and asks for no memory. *)
Theorem measure_footprint w :
  in_array (_next_report (dev w)) (dev w) ->
  let slot := Z.to_nat (_next_report (dev w)) in
  let h := env w in
  let unassigned := (fun i => to_uint8 (stack h (length (spi_log h)) i)) <$> seq 1 7 in
  exists r w',
    measure w = Done tt w' /\
    _call (dev w') = _call (dev w) /\
    _call_interval (dev w') = _call_interval (dev w) /\
    _num_reports (dev w') = _num_reports (dev w) /\
    _reports (dev w') !! slot = Some r /\
    (forall j, j <> slot -> _reports (dev w') !! j = _reports (dev w) !! j) /\
    (-32768 <= x_raw r < 32768 /\ -32768 <= y_raw r < 32768 /\ -32768 <= z_raw r < 32768) /\
    spi_log (env w') = (0xE7 :: unassigned) :: spi_log h /\
    hrt_reads (env w') = S (hrt_reads h) /\
    heap_requests (env w') = heap_requests h.
Proof.
  intros Hi slot h unassigned. rewrite (measure_run _ Hi). fold slot.
  eexists _, _. split; [reflexivity|]. cbn [dev env].
  destruct (post_fields (with_reports
    (<[slot := sample (env w) (_reports (dev w) !!! slot)]> (_reports (dev w))) (dev w)))
    as (-> & -> & -> & ->).
  cbn [with_reports _reports _call _call_interval _num_reports].
  split; [reflexivity|]. split; [reflexivity|]. split; [reflexivity|].
  split; [apply list_lookup_insert_eq; unfold in_array in Hi; subst slot; lia|].
  split; [intros j Hj; apply list_lookup_insert_ne; congruence|].
  split; [|repeat split].
  unfold sample, measured. cbn [x_raw y_raw z_raw].
  split_and!; apply int16_le_range.
Qed.

(** *** Reading *)

Lemma read_loop_idle count : forall ret buffer w,
  _oldest_report (dev w) = _next_report (dev w) ->
  read_loop count ret buffer w = Done (ret, buffer) w.
Proof.
  induction count as [|count IH]; intros ret buffer w E; [reflexivity|].
  cbn [read_loop]. unfold mbind, M_bind, get_dev. rewrite E, Z.eqb_refl. cbn [negb].
  apply IH, E.
Qed.

(** X11: a [read] whose buffer is shorter than one report returns [-ENOSPC]
    and does nothing else: no measurement is made, in manual mode too, and
    the ring and the buffer are as they were. *)
Theorem read_rejects_short_buffer buffer buflen w :
  0 < sizeof_accel_report ->
  0 <= buflen < sizeof_accel_report ->
  read buffer buflen w = Done (- ENOSPC, buffer) w.
Proof.
  intros Hsize Hlen. unfold read. rewrite Z.div_small by lia. reflexivity.
Qed.

Lemma read_empty_ring_idle buffer buflen w :
  0 < _call_interval (dev w) ->
  _oldest_report (dev w) = _next_report (dev w) ->
  1 <= to_unsigned (buflen / sizeof_accel_report) ->
  read buffer buflen w = Done (- EAGAIN, buffer) w.
Proof.
  intros Hauto Hempty Hcount. unfold read.
  destruct (Z.ltb_spec (to_unsigned (buflen / sizeof_accel_report)) 1); [lia|].
  unfold mbind, M_bind, get_dev.
  destruct (Z.ltb_spec 0 (_call_interval (dev w))); [|lia].
  rewrite (read_loop_idle _ _ _ _ Hempty). reflexivity.
Qed.

(** X10: in automatic mode a [read] that finds the ring empty returns
    [-EAGAIN] at once: it makes no measurement, does not wait, and leaves
    the world and the caller's buffer as they were. *)
Theorem read_empty_ring_would_block buffer buflen w :
  0 < _call_interval (dev w) ->
  _oldest_report (dev w) = _next_report (dev w) ->
  1 <= to_unsigned (buflen / sizeof_accel_report) ->
  read buffer buflen w = Done (- EAGAIN, buffer) w.
Proof. apply read_empty_ring_idle. Qed.

Lemma with_oldest_report_twice a b d :
  with_oldest_report a (with_oldest_report b d) = with_oldest_report a d.
Proof. reflexivity. Qed.

Lemma read_loop_moves_oldest count : forall ret buffer w out w',
  ring_ok (dev w) ->
  read_loop count ret buffer w = Done out w' ->
  exists o, w' = {| dev := with_oldest_report o (dev w); env := env w |}.
Proof.
  induction count as [|count IH]; intros ret buffer w out w' Hok Hrun.
  - cbn in Hrun. injection Hrun as _ <-. exists (_oldest_report (dev w)).
    destruct w as [[] ?]. reflexivity.
  - cbn [read_loop] in Hrun. unfold mbind at 1, M_bind at 1, get_dev at 1 in Hrun.
    destruct (negb (_oldest_report (dev w) =? _next_report (dev w))).
    + unfold load_report, mbind, M_bind, get_dev, modify_dev, mret, M_ret in Hrun.
      rewrite (in_array_test _ _ (ring_ok_oldest_in_array _ Hok)) in Hrun.
      apply IH in Hrun.
      * destruct Hrun as [o ->]. exists o. reflexivity.
      * cbn [dev]. destruct Hok as (HN & Hlen & Ho & Hn).
        pose proof (INCREMENT_in_range _ _ HN Ho). unfold ring_ok; cbn; lia.
    + apply IH in Hrun; assumption.
Qed.

(** X9: in automatic mode [read] is a pure consumer: of the driver object
    it changes the read cursor and nothing else (not the write cursor, the
    array, the capacity or the timer), it leaves the collaborators alone,
    and what it returns is the size of the [k] reports it took off the
    ring, [k] the smaller of the room in the buffer and the number of
    unread reports, or [-EAGAIN] when [k] is 0. *)
Theorem auto_read_moves_only_read_cursor buffer buflen w :
  0 < sizeof_accel_report ->
  0 < _call_interval (dev w) ->
  ring_ok (dev w) ->
  1 <= to_unsigned (buflen / sizeof_accel_report) ->
  let k := Nat.min (Z.to_nat (to_unsigned (buflen / sizeof_accel_report)))
                   (length (pending (dev w))) in
  exists o buffer',
    read buffer buflen w =
      Done (if decide (k = 0%nat) then - EAGAIN else Z.of_nat k * sizeof_accel_report,
            buffer')
           {| dev := with_oldest_report o (dev w); env := env w |} /\
    pending (with_oldest_report o (dev w)) = drop k (pending (dev w)).
Proof.
  intros Hsize Hauto Hok Hcount k.
  destruct (auto_read_run buffer buflen w Hsize Hauto Hok Hcount)
    as (w' & Hrun & _ & Hp & _). fold k in Hrun, Hp.
  assert (Hshape : exists o, w' = {| dev := with_oldest_report o (dev w); env := env w |}).
  { revert Hrun. unfold read.
    destruct (Z.ltb_spec (to_unsigned (buflen / sizeof_accel_report)) 1); [lia|].
    unfold mbind, M_bind, get_dev.
    destruct (Z.ltb_spec 0 (_call_interval (dev w))); [|lia].
    destruct (read_loop _ 0 buffer w) as [[ret b] w1| |] eqn:Hloop; try discriminate.
    intros [= _ _ <-]. eapply read_loop_moves_oldest; eassumption. }
  destruct Hshape as [o ->]. exists o. eexists. split; [exact Hrun|exact Hp].
Qed.

(** X12: [start] throws the unread reports away: whatever the ring held,
    after [start] nothing is unread, and in automatic mode a [read] that
    follows returns [-EAGAIN]. *)
Theorem restart_discards_unread buffer buflen w :
  0 < _call_interval (dev w) ->
  1 <= to_unsigned (buflen / sizeof_accel_report) ->
  exists w1,
    start w = Done tt w1 /\
    pending (dev w1) = [] /\
    read buffer buflen w1 = Done (- EAGAIN, buffer) w1.
Proof.
  intros Hauto Hcount. rewrite start_run. eexists. split; [reflexivity|]. split.
  - reflexivity.
  - apply read_empty_ring_idle; [exact Hauto|reflexivity|exact Hcount].
Qed.


(** *** Initialisation *)

Lemma init_run w :
  let k := length (spi_log (env w)) in
  let probed :=
    log_spi (read_reg_frame (env w) (S k) ADDR_WHO_AM_I)
      (log_spi (read_reg_frame (env w) k ADDR_WHO_AM_I) (env w)) in
  init w =
  if (read_reg_value (env w) (S k) ADDR_WHO_AM_I =? WHO_I_AM)
     && (cdev_init (env w) =? OK)
  then match heap (env w) (heap_requests (env w)) 2 with
       | Some x =>
           Done OK {| dev := initial_ring [zeroed_report; x] (dev w);
                      env := log_spi [0x20; 0x67]
                               (log_advertise zeroed_report (log_heap probed)) |}
       | None =>
           Done ERROR {| dev := initial_ring [] (dev w); env := log_heap probed |}
       end
  else Done ERROR {| dev := dev w; env := probed |}.
Proof.
  intros k probed. unfold init. unfold mbind at 1, M_bind at 1.
  unfold SPI_init. unfold mbind at 1, M_bind at 1. rewrite probe_run. fold k. fold probed.
  destruct (_ =? WHO_I_AM); cbn [andb].
  2:{ unfold mret, M_ret. change (- EIO =? OK) with false. reflexivity. }
  change (OK =? OK) with true. cbv iota.
  unfold mbind at 1, M_bind at 1, get_env at 1, mret at 1, M_ret at 1. cbn [env].
  change (cdev_init probed) with (cdev_init (env w)).
  destruct (cdev_init (env w) =? OK); cbn [negb]; [|reflexivity].
  unfold new_accel_reports, mbind, M_bind, get_env, modify_env, modify_dev, mret, M_ret.
  cbn [dev env]. change (heap probed (heap_requests probed)) with (heap (env w) (heap_requests (env w))).
  destruct (heap (env w) (heap_requests (env w)) 2) as [x|];
    cbn [fmap option_fmap option_map]; [|reflexivity].
  reflexivity.
Qed.

(** X14: when the device does not answer the second identity read with
    [0x49], or the base class fails to initialise, [init] returns [ERROR]
    (-1, whatever the cause was) after the two identity reads alone, each
    the frame [0x8F] followed by the byte the stack held: no ring is
    allocated, nothing is advertised, no register is written and the
    driver object is as it was. *)
Theorem init_fails_without_device w :
  let h := env w in
  let k := length (spi_log h) in
  let first := [0x8F; to_uint8 (stack h k 1)] in
  let again := [0x8F; to_uint8 (stack h (S k) 1)] in
  recv_into again (spi_wire h (S k) again).2 !!! 1%nat <> WHO_I_AM \/
  cdev_init h <> OK ->
  init w = Done ERROR {| dev := dev w; env := log_spi again (log_spi first h) |}.
Proof.
  intros h k first again H. rewrite init_run. cbv zeta. fold h. fold k.
  change (read_reg_value h (S k) ADDR_WHO_AM_I)
    with (recv_into again (spi_wire h (S k) again).2 !!! 1%nat).
  change (read_reg_frame h (S k) ADDR_WHO_AM_I) with again.
  change (read_reg_frame h k ADDR_WHO_AM_I) with first.
  destruct (Z.eqb_spec (recv_into again (spi_wire h (S k) again).2 !!! 1%nat) WHO_I_AM),
    (Z.eqb_spec (cdev_init h) OK); cbn [andb]; try reflexivity.
  tauto.
Qed.

(** X15: when the second identity read answers [0x49], the base class
    initialises and memory is there, [init] returns [OK] and leaves a ring
    of two slots with both cursors 0 and slot 0 cleared; the poll interval
    and the timer entry are not touched (the driver stays in manual mode).
    On the bus, after the two identity reads (each [0x8F] followed by the
    byte the stack held), it writes [0x67] (100 Hz, X, Y and Z enabled) to
    register [0x20], once.  The cleared slot 0 is handed to
    [orb_advertise], once; nothing is published, no clock is read and no
    waiter is notified. *)
Theorem init_success w x :
  let h := env w in
  let k := length (spi_log h) in
  let first := [0x8F; to_uint8 (stack h k 1)] in
  let again := [0x8F; to_uint8 (stack h (S k) 1)] in
  recv_into again (spi_wire h (S k) again).2 !!! 1%nat = WHO_I_AM ->
  cdev_init h = OK ->
  heap h (heap_requests h) 2 = Some x ->
  exists w',
    init w = Done OK w' /\
    dev w' = initial_ring [zeroed_report; x] (dev w) /\
    spi_log (env w') = [0x20; 0x67] :: again :: first :: spi_log h /\
    heap_requests (env w') = S (heap_requests h) /\
    orb_advertised (env w') = zeroed_report :: orb_advertised h /\
    orb_published (env w') = orb_published h /\
    hrt_reads (env w') = hrt_reads h /\
    poll_notified (env w') = poll_notified h.
Proof.
  intros h k first again Hid Hbase Hheap. rewrite init_run. cbv zeta. fold h. fold k.
  change (read_reg_value h (S k) ADDR_WHO_AM_I)
    with (recv_into again (spi_wire h (S k) again).2 !!! 1%nat).
  rewrite Hid, Hbase, Hheap.
  eexists. split; [reflexivity|]. repeat split.
Qed.

(** X16: when the array cannot be allocated, [init] returns [ERROR] but has
    already set the capacity to 2: the object is left with a capacity and
    no array, and a measurement on it would touch a slot that is not
    there. *)
Theorem init_out_of_memory w :
  read_reg_value (env w) (S (length (spi_log (env w)))) ADDR_WHO_AM_I = WHO_I_AM ->
  cdev_init (env w) = OK ->
  heap (env w) (heap_requests (env w)) 2 = None ->
  exists w',
    init w = Done ERROR w' /\
    _num_reports (dev w') = 2 /\
    _reports (dev w') = [] /\
    measure w' = Fault.
Proof.
  intros Hid Hbase Hheap. rewrite init_run. cbv zeta. rewrite Hid, Hbase, Hheap.
  eexists. split; [reflexivity|]. split; [reflexivity|]. split; [reflexivity|].
  apply measure_fault. unfold in_array. cbn. lia.
Qed.


(** *** Poll rate *)

Lemma ioctl_pollrate_preset b sel w :
  selectors_distinct ->
  sel = SENSOR_POLLRATE_MAX \/ sel = SENSOR_POLLRATE_DEFAULT ->
  ioctl (S b) SENSORIOCSPOLLRATE sel w = ioctl b SENSORIOCSPOLLRATE 250 w.
Proof.
  intros (Hm & He & Hx & Hd & Hme & Hmx & Hmd & Hex & Hed & Hxd) Hsel. cbn [ioctl].
  destruct (Z.eqb_spec sel SENSOR_POLLRATE_MANUAL); [destruct Hsel; congruence|].
  destruct (Z.eqb_spec sel SENSOR_POLLRATE_EXTERNAL); [destruct Hsel; congruence|].
  destruct (Z.eqb_spec sel 0); [destruct Hsel; congruence|].
  cbn [orb].
  destruct (Z.eqb_spec sel SENSOR_POLLRATE_MAX); [reflexivity|].
  destruct (Z.eqb_spec sel SENSOR_POLLRATE_DEFAULT); [reflexivity|].
  destruct Hsel; congruence.
Qed.

(** X17: the selectors [SENSOR_POLLRATE_MAX] and [SENSOR_POLLRATE_DEFAULT]
    both mean 250 Hz: from every state the call returns [OK] with a poll
    interval of 4000 microseconds, and starts the scheduler if it was
    stopped, exactly as the rate 250 does. *)
Theorem pollrate_preset_is_250hz b sel w :
  selectors_distinct ->
  numeric_rate 250 ->
  sel = SENSOR_POLLRATE_MAX \/ sel = SENSOR_POLLRATE_DEFAULT ->
  ioctl (S (S b)) SENSORIOCSPOLLRATE sel w =
    Done OK {| dev := rate_set 4000 (dev w); env := env w |} /\
  ioctl (S (S b)) SENSORIOCSPOLLRATE sel w = ioctl (S b) SENSORIOCSPOLLRATE 250 w.
Proof.
  intros Hdist Hnum Hsel. rewrite (ioctl_pollrate_preset _ _ _ Hdist Hsel).
  split; [|reflexivity]. rewrite (ioctl_pollrate_numeric _ _ _ Hnum). reflexivity.
Qed.

Lemma rate_of_interval r : 0 < r <= 1000 -> 1000000 / (1000000 / r) = r.
Proof.
  intros Hr. symmetry.
  pose proof (Z.div_mod 1000000 r ltac:(lia)) as Hdm.
  pose proof (Z.mod_pos_bound 1000000 r ltac:(lia)) as Hm.
  assert (Hq : 1000 <= 1000000 / r) by (apply Z.div_le_lower_bound; lia).
  apply (Z.div_unique _ _ _ (1000000 mod r)); lia.
Qed.

Lemma rate_set_interval ticks d : _call_interval (rate_set ticks d) = ticks.
Proof. unfold rate_set. destruct (_call_interval d =? 0); reflexivity. Qed.

(** X18: the poll rate reads back as it was set: after any accepted rate
    [r] (1 to 1000 Hz), [SENSORIOCGPOLLRATE] returns [r] itself, although
    the driver only keeps the interval [1000000 / r]; after
    [SENSOR_POLLRATE_MANUAL] it returns [SENSOR_POLLRATE_MANUAL]. *)
Theorem pollrate_round_trip b b' a r w :
  numeric_rate r -> r <= 1000 ->
  (exists w',
     ioctl (S b) SENSORIOCSPOLLRATE r w = Done OK w' /\
     ioctl (S b') SENSORIOCGPOLLRATE a w' = Done r w') /\
  (exists w',
     ioctl (S b) SENSORIOCSPOLLRATE SENSOR_POLLRATE_MANUAL w = Done OK w' /\
     ioctl (S b') SENSORIOCGPOLLRATE a w' = Done SENSOR_POLLRATE_MANUAL w').
Proof.
  intros Hnum Hr. pose proof Hnum as [[Hpos Hmax] _]. split.
  - rewrite (ioctl_pollrate_numeric _ _ _ Hnum).
    assert (Hq : 1000 <= 1000000 / r) by (apply Z.div_le_lower_bound; lia).
    destruct (Z.ltb_spec (1000000 / r) 1000); [lia|].
    eexists. split; [reflexivity|]. cbn [ioctl]. unfold mbind, M_bind, get_dev, mret, M_ret.
    cbn [dev]. rewrite rate_set_interval.
    destruct (Z.eqb_spec (1000000 / r) 0); [lia|].
    rewrite rate_of_interval by lia. rewrite to_int_small by lia. reflexivity.
  - rewrite ioctl_pollrate_manual. eexists. split; reflexivity.
Qed.

(** X19: an accepted rate restarts the ring only when polling was stopped.
    While the scheduler runs (interval not 0), a new rate changes the
    interval and the period and nothing else: the unread reports, both
    cursors and the timer entry stay.  From a stopped scheduler the same
    call also discards the unread reports and queues the timer entry. *)
Theorem rate_change_keeps_ring_while_running b r w :
  numeric_rate r -> r <= 1000 ->
  exists w',
    ioctl (S b) SENSORIOCSPOLLRATE r w = Done OK w' /\
    env w' = env w /\
    _reports (dev w') = _reports (dev w) /\
    _num_reports (dev w') = _num_reports (dev w) /\
    (_call_interval (dev w) <> 0 ->
       _oldest_report (dev w') = _oldest_report (dev w) /\
       _next_report (dev w') = _next_report (dev w) /\
       pending (dev w') = pending (dev w) /\
       queued (_call (dev w')) = queued (_call (dev w)) /\
       delay (_call (dev w')) = delay (_call (dev w))) /\
    (_call_interval (dev w) = 0 ->
       pending (dev w') = [] /\
       _call (dev w') = {| queued := true; delay := 1000; period := 1000000 / r |}).
Proof.
  intros Hnum Hr. pose proof Hnum as [[Hpos Hmax] _].
  rewrite (ioctl_pollrate_numeric _ _ _ Hnum).
  assert (Hq : 1000 <= 1000000 / r) by (apply Z.div_le_lower_bound; lia).
  destruct (Z.ltb_spec (1000000 / r) 1000); [lia|].
  eexists. split; [reflexivity|]. cbn [dev env]. unfold rate_set.
  destruct (Z.eqb_spec (_call_interval (dev w)) 0) as [E|E].
  - split; [reflexivity|]. split; [reflexivity|]. split; [reflexivity|].
    split; [intros; contradiction|]. intros _. split; reflexivity.
  - split; [reflexivity|]. split; [reflexivity|]. split; [reflexivity|].
    split; [|intros; contradiction]. intros _. repeat split.
Qed.

(** *** Queue depth *)


(** X21: no [ioctl] talks to the device: whatever the command and the
    argument, a call that returns has made no bus exchange (in particular
    a poll rate is never forwarded to the sensor), read no clock, woken no
    waiter and published no report. *)
Theorem ioctl_never_touches_bus budget : forall cmd arg w ret w',
  ioctl budget cmd arg w = Done ret w' ->
  spi_log (env w') = spi_log (env w) /\
  hrt_reads (env w') = hrt_reads (env w) /\
  poll_notified (env w') = poll_notified (env w) /\
  orb_published (env w') = orb_published (env w).
Proof.
  induction budget as [|budget IH]; intros cmd arg w ret w' Hrun; [discriminate|].
  destruct cmd; cbn [ioctl] in Hrun.
  - destruct (arg =? SENSOR_POLLRATE_MANUAL).
    { injection Hrun as _ <-. repeat split. }
    destruct ((arg =? SENSOR_POLLRATE_EXTERNAL) || (arg =? 0)).
    { injection Hrun as _ <-. repeat split. }
    destruct ((arg =? SENSOR_POLLRATE_MAX) || (arg =? SENSOR_POLLRATE_DEFAULT));
      [apply IH in Hrun; exact Hrun|].
    unfold mbind at 1, M_bind at 1, get_dev at 1 in Hrun.
    destruct (_ <? 1000); [injection Hrun as _ <-; repeat split|].
    unfold mbind, M_bind, modify_dev, when, mret, M_ret in Hrun. cbn [dev env] in Hrun.
    destruct (_call_interval (dev w) =? 0); [rewrite start_run in Hrun|];
      injection Hrun as _ <-; repeat split.
  - unfold mbind, M_bind, get_dev in Hrun.
    destruct (_call_interval (dev w) =? 0); injection Hrun as _ <-; repeat split.
  - destruct ((to_unsigned (arg + 1) <? 2) || (100 <? to_unsigned (arg + 1)));
      [injection Hrun as _ <-; repeat split|].
    unfold new_accel_reports, mbind, M_bind, get_env, modify_env, mret, M_ret in Hrun.
    cbn [dev env] in Hrun.
    destruct (heap (env w) (heap_requests (env w)) (to_unsigned (arg + 1))) as [x|];
      cbn [fmap option_fmap option_map] in Hrun.
    + unfold modify_dev in Hrun. rewrite stop_run in Hrun. cbn [dev env] in Hrun.
      rewrite start_run in Hrun. injection Hrun as _ <-. repeat split.
    + injection Hrun as _ <-. repeat split.
  - injection Hrun as _ <-. repeat split.
  - injection Hrun as _ <-. repeat split.
  - injection Hrun as _ <-. repeat split.
Qed.


(** *** The sequences the shell commands run *)

Lemma init_ok_inv w w' :
  init w = Done OK w' ->
  exists x, dev w' = initial_ring [zeroed_report; x] (dev w).
Proof.
  rewrite init_run. cbv zeta.
  destruct (_ && _); [|discriminate].
  destruct (heap (env w) (heap_requests (env w)) 2) as [x|]; [|discriminate].
  intros [= <-]. exists x. reflexivity.
Qed.



(** X23: what the [start] command does to the driver.  On a driver that was
    constructed and initialised, [SENSOR_POLLRATE_DEFAULT] returns [OK] and
    leaves it polling at 250 Hz: interval and period 4000 microseconds,
    the timer entry queued with a first delay of 1000 microseconds, a ring
    of two slots with nothing unread, and not one measurement made yet. *)
Theorem startup_sequence b w0 w1 :
  selectors_distinct ->
  numeric_rate 250 ->
  dev w0 = LSM303D_new ->
  init w0 = Done OK w1 ->
  exists w2,
    ioctl (S (S b)) SENSORIOCSPOLLRATE SENSOR_POLLRATE_DEFAULT w1 = Done OK w2 /\
    _call_interval (dev w2) = 4000 /\
    _call (dev w2) = {| queued := true; delay := 1000; period := 4000 |} /\
    _num_reports (dev w2) = 2 /\
    pending (dev w2) = [] /\
    env w2 = env w1.
Proof.
  intros Hdist Hnum Hnew Hinit. destruct (init_ok_inv _ _ Hinit) as [x Hdev].
  rewrite Hnew in Hdev.
  rewrite (ioctl_pollrate_preset _ _ _ Hdist (or_intror eq_refl)).
  rewrite (ioctl_pollrate_numeric _ _ _ Hnum).
  eexists. split; [reflexivity|]. cbn [dev env]. rewrite Hdev. repeat split.
Qed.


(** *** Filling the ring *)

Lemma keep_last_length {A} m (l : list A) :
  length (keep_last m l) = Nat.min (length l) m.
Proof. unfold keep_last. rewrite length_drop. lia. Qed.

Lemma measure_step w :
  ring_inv w ->
  exists w',
    measure w = Done tt w' /\
    ring_inv w' /\
    _num_reports (dev w') = _num_reports (dev w) /\
    length (pending (dev w')) =
      Nat.min (length (pending (dev w)) + 1) (Z.to_nat (_num_reports (dev w) - 1)) /\
    length (orb_published (env w')) = S (length (orb_published (env w))).
Proof.
  intros Hinv. destruct (measure_keeps_inv w Hinv) as (w' & Hrun & Hinv').
  exists w'. split; [exact Hrun|]. split; [exact Hinv'|].
  destruct Hinv as [Hok _].
  rewrite (measure_run _ (ring_ok_next_in_array _ Hok)) in Hrun.
  injection Hrun as <-. cbn [dev env log_publish orb_published length].
  rewrite (pending_post _ _ Hok), keep_last_length, length_app. cbn [length].
  split; [|split; reflexivity].
  match goal with |- _num_reports (post ?d) = _ => destruct (post_fields d) as (-> & _) end.
  reflexivity.
Qed.

Lemma measures_run b n : forall w,
  ring_inv w ->
  exists w',
    perform_all b (replicate n op_measure) w = Done tt w' /\
    ring_inv w' /\
    _num_reports (dev w') = _num_reports (dev w) /\
    length (pending (dev w')) =
      Nat.min (length (pending (dev w)) + n) (Z.to_nat (_num_reports (dev w) - 1)) /\
    length (orb_published (env w')) = (n + length (orb_published (env w)))%nat.
Proof.
  induction n as [|n IH]; intros w Hinv.
  - exists w. cbn [replicate perform_all]. split; [reflexivity|]. split; [exact Hinv|].
    split; [reflexivity|]. split; [|reflexivity].
    destruct Hinv as [Hok _]. pose proof (pending_length _ Hok).
    pose proof (unread_range _ Hok). lia.
  - destruct (measure_step w Hinv) as (w1 & Hrun & Hinv1 & HN1 & Hlen1 & Hpub1).
    destruct (IH w1 Hinv1) as (w' & Hrun' & Hinv' & HN' & Hlen' & Hpub').
    exists w'. cbn [replicate perform_all perform]. unfold mbind, M_bind, measure_trampoline.
    rewrite Hrun. split; [exact Hrun'|]. split; [exact Hinv'|].
    split; [congruence|]. rewrite HN1 in *. split; lia.
Qed.

(** X7: the ring keeps the newest reports.  After [n] callouts on an empty
    ring of [N] slots, the unread reports are the last [min n (N - 1)]
    reports published, oldest first: up to [N - 1] callouts nothing is
    lost, from then on every callout drops the oldest unread report. *)
Theorem callouts_fill_ring b n w :
  ring_ok (dev w) ->
  _oldest_report (dev w) = _next_report (dev w) ->
  let k := Nat.min n (Z.to_nat (_num_reports (dev w) - 1)) in
  exists w',
    perform_all b (replicate n op_measure) w = Done tt w' /\
    length (orb_published (env w')) = (n + length (orb_published (env w)))%nat /\
    pending (dev w') = reverse (take k (orb_published (env w'))).
Proof.
  intros Hok Hempty k.
  assert (Hnil : pending (dev w) = []) by (apply pending_nil; assumption).
  assert (Hinv : ring_inv w) by (split; [exact Hok|apply latest_unread_nil, Hnil]).
  destruct (measures_run b n w Hinv) as (w' & Hrun & [_ Hlate] & _ & Hlen & Hpub).
  exists w'. split; [exact Hrun|]. split; [exact Hpub|].
  rewrite Hnil in Hlen. cbn [length] in Hlen. unfold latest_unread in Hlate.
  rewrite Hlen in Hlate. exact Hlate.
Qed.

End Properties.

(** * Examples on the test bench *)

Import Bench.

(** C2 as stated fails: the transfer fails, yet the write cursor moves
    and a report is published. *)
Lemma measure_failed_transfer_still_posts :
  (spi_wire (env bus_down) (length (spi_log (env bus_down)))
     (measure_frame (env bus_down))).1 <> OK /\
  exists w',
    measure bus_down = Done tt w' /\
    _next_report (dev bus_down) = 0 /\
    _next_report (dev w') = 1 /\
    orb_published (env bus_down) = [] /\
    orb_published (env w') = [R 0].
Proof.
  split; [vm_compute; discriminate|].
  eexists. split; [vm_compute; reflexivity|]. repeat split.
Qed.

(** On the bench with a bus that fails and delivers nothing, the
    measurement still posts a report; its axes are the stack bytes
    [0xAA 0xAA] read as a 16-bit value. *)
Lemma measure_ignores_transfer_status_witness :
  exists w',
    measure bus_dead = Done tt w' /\
    _next_report (dev w') = 1 /\
    spi_log (env w') = [[0xE7; 0xAA; 0xAA; 0xAA; 0xAA; 0xAA; 0xAA; 0xAA]] /\
    orb_published (env w') =
      [{| timestamp := 1000; x_raw := -21846; y_raw := -21846; z_raw := -21846; si := 0 |}].
Proof.
  destruct (measure_ignores_transfer_status bus_dead) as (w' & Hrun & _ & Hnext & _ & _ & Hpub).
  - vm_compute. split; [discriminate|reflexivity].
  - vm_compute. discriminate.
  - exists w'. split; [exact Hrun|]. split; [exact Hnext|]. split; [|exact Hpub].
    revert Hrun. vm_compute. intros [= <-]. reflexivity.
Defined.



(** C4 as stated fails: with an interval of 4000 microseconds the first
    callout is still 1000 microseconds away. *)
Lemma start_delay_is_not_the_interval :
  exists w',
    start running = Done tt w' /\
    _call_interval (dev w') = 4000 /\
    delay (_call (dev w')) = 1000 /\
    delay (_call (dev w')) <> _call_interval (dev w').
Proof.
  eexists. split; [reflexivity|]. repeat split. vm_compute. discriminate.
Qed.


(** On the bench, a depth of 100 is out of range, and a depth of 5 fails
    for lack of memory; the driver object is unchanged both times. *)
Lemma queue_depth_failure_keeps_ring_witness :
  ioctl (P := px4) 1 SENSORIOCSQUEUEDEPTH 100 running = Done (- EINVAL) running /\
  exists w',
    ioctl (P := px4) 1 SENSORIOCSQUEUEDEPTH 5 no_memory = Done (- ENOMEM) w' /\
    dev w' = dev no_memory.
Proof.
  split.
  - apply (queue_depth_failure_keeps_ring (P := px4) 0 100 running).
    + vm_compute. split; [discriminate|reflexivity].
    + right. vm_compute. reflexivity.
  - apply (queue_depth_failure_keeps_ring (P := px4) 0 5 no_memory).
    + vm_compute. split; [discriminate|reflexivity].
    + vm_compute. split; discriminate.
    + reflexivity.
Defined.

(** On the bench, a depth of 5 gives a ring of 6 slots and is read back
    as 5. *)
Lemma queue_depth_round_trip_witness :
  exists w',
    ioctl (P := px4) 1 SENSORIOCSQUEUEDEPTH 5 running = Done OK w' /\
    _num_reports (dev w') = 6 /\
    Z.of_nat (length (_reports (dev w'))) = 6 /\
    ioctl (P := px4) 1 SENSORIOCGQUEUEDEPTH 0 w' = Done 5 w'.
Proof.
  apply (queue_depth_round_trip (P := px4) 0 0 0 5 running).
  - vm_compute. split; discriminate.
  - vm_compute. discriminate.
Defined.

(** On the bench, 1001 Hz is refused and 250 Hz starts the stopped
    scheduler with an interval of 4000 microseconds. *)
Lemma pollrate_numeric_floor_witness :
  ioctl (P := px4) 1 SENSORIOCSPOLLRATE 1001 manual = Done (- EINVAL) manual /\
  exists w',
    ioctl (P := px4) 1 SENSORIOCSPOLLRATE 250 manual = Done OK w' /\
    _call_interval (dev w') = 4000 /\
    queued (_call (dev w')) = true.
Proof.
  split.
  - apply (pollrate_numeric_floor (P := px4) 0 1001 manual).
    + vm_compute. repeat split; discriminate.
    + vm_compute. reflexivity.
  - destruct (pollrate_numeric_floor (P := px4) 0 250 manual) as (_ & _ & Hacc).
    + vm_compute. repeat split; discriminate.
    + destruct Hacc as (w' & Hrun & Hint & _ & Hq & _); [vm_compute; discriminate|].
      exists w'. split; [exact Hrun|]. split; [exact Hint|]. apply Hq. reflexivity.
Defined.

(** On the bench: [init], a resize, a rate, three callouts and a read. *)
Lemma cursors_stay_in_array_witness :
  ring_ok (dev initialised) /\
  match perform_all (P := px4) 2
          [op_ioctl SENSORIOCSQUEUEDEPTH 2; op_ioctl SENSORIOCSPOLLRATE 250;
           op_measure; op_measure; op_measure; op_read [B0; B1] 80]
          initialised with
  | Done _ w2 => ring_ok (dev w2)
  | Fault => False
  | Unwound =>
      SENSOR_POLLRATE_MAX (platform := px4) = 250 \/
      SENSOR_POLLRATE_DEFAULT (platform := px4) = 250
  end.
Proof.
  apply (cursors_stay_in_array (P := px4) 0 constructed initialised).
  vm_compute. reflexivity.
Defined.

(** C1 fails on the code: four reports [R 0] .. [R 3] are written into a
    ring of three slots, so that the two most recent, [R 2] and [R 3], are
    unread.  A read with room for ten reports returns the size of two
    reports, but every report is copied to the start of the buffer: the
    caller finds [R 3] in the first slot and its own old bytes in the
    second, not [R 2] followed by [R 3]. *)
Lemma read_many_keeps_newest_only :
  pending (dev after_four_ticks) = [R 2; R 3] /\
  exists w',
    read (P := px4) (replicate 10 B0) 400 after_four_ticks
      = Done (80, R 3 :: replicate 9 B0) w' /\
    pending (dev w') = [].
Proof.
  split; [vm_compute; reflexivity|].
  eexists. split; vm_compute; reflexivity.
Qed.

(** ** More examples on the test bench *)

(** The identity register of the bench device reads [0x49]. *)
Lemma read_reg_protocol_witness :
  exists v w',
    read_reg 0x0F constructed = Done v w' /\
    spi_log (env w') = [[0x8F; 0xAA]] /\
    v = 0x49.
Proof.
  destruct (read_reg_protocol 0x0F constructed) as (v & w' & Hrun & _ & Hlog & _ & Hv).
  - vm_compute. split; [discriminate|reflexivity].
  - exists v, w'. split; [exact Hrun|]. split; [exact Hlog|exact Hv].
Defined.

(** Writing [0x167] to register [0x20] sends the byte [0x67]. *)
Lemma write_reg_protocol_witness :
  write_reg 0x20 0x167 constructed =
  Done tt {| dev := dev constructed; env := log_spi [0x20; 0x67] (env constructed) |}.
Proof.
  apply (write_reg_protocol 0x20 0x167 constructed).
  vm_compute. split; [discriminate|reflexivity].
Defined.

(** The fifth measurement of the bench decodes to [R 4]. *)
Lemma measure_decodes_little_endian_witness :
  exists w',
    measure after_four_ticks = Done tt w' /\
    _reports (dev w') !! 1%nat = Some (R 4).
Proof.
  apply (measure_decodes_little_endian after_four_ticks 0xFF 0x0F 4 0 8 0 12 0).
  - vm_compute. split; [discriminate|reflexivity].
  - vm_compute. reflexivity.
  - repeat constructor; vm_compute; discriminate.
Defined.

(** A measurement on the running bench driver leaves timer and interval. *)
Lemma measure_footprint_witness :
  exists w',
    measure running = Done tt w' /\
    _call (dev w') = _call (dev running) /\
    _call_interval (dev w') = 4000 /\
    spi_log (env w') = [[0xE7; 0xAA; 0xAA; 0xAA; 0xAA; 0xAA; 0xAA; 0xAA]].
Proof.
  destruct (measure_footprint running)
    as (r & w' & Hrun & Hcall & Hint & _ & _ & _ & _ & Hspi & _).
  - vm_compute. split; [discriminate|reflexivity].
  - exists w'. split; [exact Hrun|]. split; [exact Hcall|]. split; [exact Hint|exact Hspi].
Defined.

(** On the full ring holding [R 2; R 3], the next measurement drops [R 2]. *)
Lemma measure_drops_oldest_witness :
  exists w',
    measure after_four_ticks = Done tt w' /\
    pending (dev w') = [R 3; R 4].
Proof.
  destruct (measure_drops_oldest after_four_ticks) as (w' & Hrun & Hp & _).
  - vm_compute. repeat split; discriminate.
  - exists w'. split; [exact Hrun|]. rewrite Hp. vm_compute. reflexivity.
Defined.

(** Four callouts on the empty ring of three slots leave the last two. *)
Lemma callouts_fill_ring_witness :
  exists w',
    perform_all (P := px4) 0 (replicate 4 op_measure) running = Done tt w' /\
    length (orb_published (env w')) = 4%nat /\
    pending (dev w') = reverse (take 2 (orb_published (env w'))).
Proof.
  apply (callouts_fill_ring (P := px4) 0 4 running).
  - vm_compute. repeat split; discriminate.
  - reflexivity.
Defined.

(** A read of one report takes [R 2] and leaves [R 3]. *)
Lemma read_one_report_is_oldest_witness :
  exists w',
    read (P := px4) [B0] 40 after_four_ticks = Done (40, [R 2]) w' /\
    pending (dev w') = [R 3].
Proof.
  apply (read_one_report_is_oldest (P := px4) [B0] 40 after_four_ticks (R 2) [R 3]).
  - reflexivity.
  - reflexivity.
  - vm_compute. repeat split; discriminate.
  - reflexivity.
  - vm_compute. reflexivity.
Defined.

(** A read with room for ten takes both unread reports and returns 80. *)
Lemma auto_read_moves_only_read_cursor_witness :
  exists o buffer',
    read (P := px4) (replicate 10 B0) 400 after_four_ticks =
      Done (80, buffer')
           {| dev := with_oldest_report o (dev after_four_ticks);
              env := env after_four_ticks |} /\
    pending (with_oldest_report o (dev after_four_ticks)) = [].
Proof.
  apply (auto_read_moves_only_read_cursor (P := px4) (replicate 10 B0) 400 after_four_ticks).
  - reflexivity.
  - reflexivity.
  - vm_compute. repeat split; discriminate.
  - vm_compute. discriminate.
Defined.

(** The running driver has measured nothing yet: a read would block. *)
Lemma read_empty_ring_would_block_witness :
  read (P := px4) [B0] 40 running = Done (- EAGAIN, [B0]) running.
Proof.
  apply (read_empty_ring_would_block (P := px4) [B0] 40 running).
  - reflexivity.
  - reflexivity.
  - vm_compute. discriminate.
Defined.

(** 39 bytes are one short of a report. *)
Lemma read_rejects_short_buffer_witness :
  read (P := px4) [B0] 39 manual = Done (- ENOSPC, [B0]) manual.
Proof.
  apply (read_rejects_short_buffer (P := px4) [B0] 39 manual).
  - reflexivity.
  - vm_compute. split; [discriminate|reflexivity].
Defined.

(** [start] on the full ring: the two unread reports are gone. *)
Lemma restart_discards_unread_witness :
  exists w1,
    start after_four_ticks = Done tt w1 /\
    pending (dev w1) = [] /\
    read (P := px4) [B0] 40 w1 = Done (- EAGAIN, [B0]) w1.
Proof.
  apply (restart_discards_unread (P := px4) [B0] 40 after_four_ticks).
  - reflexivity.
  - vm_compute. discriminate.
Defined.

(** After [init], a resize, a rate, three callouts and a read of one. *)
Lemma unread_are_latest_published_witness :
  match perform_all (P := px4) 2
          [op_ioctl SENSORIOCSQUEUEDEPTH 2; op_ioctl SENSORIOCSPOLLRATE 250;
           op_measure; op_measure; op_measure; op_read [B0] 40]
          initialised with
  | Done _ w2 =>
      Z.of_nat (length (pending (dev w2))) <= _num_reports (dev w2) - 1 /\
      pending (dev w2) =
        reverse (take (length (pending (dev w2))) (orb_published (env w2)))
  | Fault => False
  | Unwound =>
      SENSOR_POLLRATE_MAX (platform := px4) = 250 \/
      SENSOR_POLLRATE_DEFAULT (platform := px4) = 250
  end.
Proof.
  apply (unread_are_latest_published (P := px4) 0 constructed initialised).
  vm_compute. reflexivity.
Defined.

(** With no device on the bus, [init] gives up after the identity reads. *)
Lemma init_fails_without_device_witness :
  init no_device =
  Done ERROR
    {| dev := dev no_device;
       env := log_spi [0x8F; 0xAA] (log_spi [0x8F; 0xAA] (env no_device)) |}.
Proof.
  apply (init_fails_without_device no_device). left. vm_compute. discriminate.
Defined.

(** [init] on the bench. *)
Lemma init_success_witness :
  exists w',
    init constructed = Done OK w' /\
    _num_reports (dev w') = 2 /\
    _call_interval (dev w') = 0 /\
    spi_log (env w') = [[0x20; 0x67]; [0x8F; 0xAA]; [0x8F; 0xAA]] /\
    orb_advertised (env w') = [zeroed_report] /\
    orb_published (env w') = [].
Proof.
  destruct (init_success constructed zeroed_report)
    as (w' & Hrun & Hdev & Hspi & _ & Hadv & Hpub & _).
  - vm_compute. reflexivity.
  - reflexivity.
  - reflexivity.
  - exists w'. split; [exact Hrun|]. rewrite Hdev. split; [reflexivity|].
    split; [reflexivity|]. split; [exact Hspi|]. split; [exact Hadv|exact Hpub].
Defined.

(** [init] on the bench without memory. *)
Lemma init_out_of_memory_witness :
  exists w',
    init constructed_no_memory = Done ERROR w' /\
    _num_reports (dev w') = 2 /\
    _reports (dev w') = [] /\
    measure w' = Fault.
Proof.
  apply (init_out_of_memory constructed_no_memory).
  - vm_compute. reflexivity.
  - reflexivity.
  - reflexivity.
Defined.

Lemma px4_selectors_distinct : selectors_distinct (P := px4).
Proof. vm_compute. repeat split; discriminate. Defined.

Lemma px4_numeric_250 : numeric_rate (P := px4) 250.
Proof. vm_compute. repeat split; discriminate. Defined.

(** [SENSOR_POLLRATE_DEFAULT] on the bench driver in manual mode. *)
Lemma pollrate_preset_is_250hz_witness :
  ioctl (P := px4) 2 SENSORIOCSPOLLRATE 1000003 manual =
  Done OK {| dev := rate_set 4000 (dev manual); env := env manual |}.
Proof.
  apply (pollrate_preset_is_250hz (P := px4) 0 1000003 manual
           px4_selectors_distinct px4_numeric_250).
  right. reflexivity.
Defined.

(** 300 Hz is kept as 3333 microseconds and reads back as 300 Hz. *)
Lemma pollrate_round_trip_witness :
  exists w',
    ioctl (P := px4) 1 SENSORIOCSPOLLRATE 300 manual = Done OK w' /\
    _call_interval (dev w') = 3333 /\
    ioctl (P := px4) 1 SENSORIOCGPOLLRATE 0 w' = Done 300 w'.
Proof.
  destruct (pollrate_round_trip (P := px4) 0 0 0 300 manual) as [(w' & Hset & Hget) _].
  - vm_compute. repeat split; discriminate.
  - vm_compute. discriminate.
  - exists w'. split; [exact Hset|]. split; [|exact Hget].
    revert Hset. vm_compute. intros [= <-]. reflexivity.
Defined.

(** A new rate on the full ring keeps the two unread reports. *)
Lemma rate_change_keeps_ring_while_running_witness :
  exists w',
    ioctl (P := px4) 1 SENSORIOCSPOLLRATE 500 after_four_ticks = Done OK w' /\
    pending (dev w') = [R 2; R 3].
Proof.
  destruct (rate_change_keeps_ring_while_running (P := px4) 0 500 after_four_ticks)
    as (w' & Hrun & _ & _ & _ & Hkeep & _).
  - vm_compute. repeat split; discriminate.
  - vm_compute. discriminate.
  - exists w'. split; [exact Hrun|].
    destruct Hkeep as (_ & _ & Hp & _); [vm_compute; discriminate|].
    rewrite Hp. vm_compute. reflexivity.
Defined.


(** Setting 250 Hz on the bench exchanges nothing on the bus. *)
Lemma ioctl_never_touches_bus_witness :
  exists w',
    ioctl (P := px4) 1 SENSORIOCSPOLLRATE 250 manual = Done OK w' /\
    spi_log (env w') = [].
Proof.
  eexists. split; [vm_compute; reflexivity|].
  refine (proj1 (ioctl_never_touches_bus (P := px4) 1 SENSORIOCSPOLLRATE 250 manual OK _ _)).
  vm_compute. reflexivity.
Defined.


(** The [start] command on the bench. *)
Lemma startup_sequence_witness :
  exists w2,
    ioctl (P := px4) 2 SENSORIOCSPOLLRATE 1000003 initialised = Done OK w2 /\
    _call_interval (dev w2) = 4000 /\
    _call (dev w2) = {| queued := true; delay := 1000; period := 4000 |}.
Proof.
  destruct (startup_sequence (P := px4) 0 constructed initialised
              px4_selectors_distinct px4_numeric_250)
    as (w2 & Hrun & Hint & Hcall & _).
  - reflexivity.
  - vm_compute. reflexivity.
  - exists w2. split; [exact Hrun|]. split; [exact Hint|exact Hcall].
Defined.
